(** * Chart rendering and object-storage upload of census_query_agent

    A shallow embedding of [census_query_agent/visualization.py]
    ([VisualizationTool.plot_from_rows], [plot_from_dataframe],
    [upload_to_gcs]), of the agent tools [create_chart] and
    [upload_chart_to_gcs] of [census_query_agent/agent.py], and of the
    routes [get_chart] and [chat] of [app.py].

    Python [str] values are modelled as [string] (code points below 256),
    [bytes] as [list Z] with every element in [0, 256), [int] as [Z] and
    [float] as an IEEE binary64 value ([spec_float]).  The external
    libraries (matplotlib/seaborn, google-cloud-storage, os.urandom, the
    ADK runner) are
    parameters of the model: each call to them is an explicit input of
    the embedded functions, and each call is recorded in a trace. *)

From Stdlib Require Import String Ascii ZArith List Bool Lia Sorting.Permutation Sorting.Sorted.
From Stdlib Require Import Floats.SpecFloat.
Import ListNotations.
Open Scope string_scope.
Open Scope Z_scope.

(** Python exceptions that can escape the embedded functions. *)
Inductive exn :=
| ValueError (msg : string)
| BinasciiError (msg : string)
| KeyError (key : string)
| TypeError (msg : string)
| LibraryError (msg : string)
| AttributeError (msg : string)
| HTTPException (status_code : Z) (detail : string).

(** Result of a Python call: a returned value or a raised exception. *)
Inductive outcome (A : Type) :=
| Returned (a : A)
| Raised (e : exn).
Arguments Returned {A} a.
Arguments Raised {A} e.

(** ** String helpers (Python [str] methods) *)
Module Str.

(** [c in s] for a one-character needle. *)
Fixpoint contains (c : ascii) (s : string) : bool :=
  match s with
  | EmptyString => false
  | String d s' => Ascii.eqb c d || contains c s'
  end.

(** [s.split(c, 1)[1]]: the text after the first occurrence of [c]
    (only called when [c in s]). *)
Fixpoint after_first (c : ascii) (s : string) : string :=
  match s with
  | EmptyString => EmptyString
  | String d s' => if Ascii.eqb c d then s' else after_first c s'
  end.

(** [str.isspace] on code points below 256:
    \t \n \x0b \x0c \r, \x1c-\x1f, space, \x85 and \xa0. *)
Definition isspace (c : ascii) : bool :=
  let n := nat_of_ascii c in
  ((9 <=? n) && (n <=? 13))%nat || ((28 <=? n) && (n <=? 32))%nat
  || (n =? 133)%nat || (n =? 160)%nat.

Fixpoint lstrip (s : string) : string :=
  match s with
  | EmptyString => EmptyString
  | String c s' => if isspace c then lstrip s' else s
  end.

Fixpoint rev_str (s : string) (acc : string) : string :=
  match s with
  | EmptyString => acc
  | String c s' => rev_str s' (String c acc)
  end.

(** Every character of [s] satisfies [p]. *)
Fixpoint all_chars (p : ascii -> bool) (s : string) : bool :=
  match s with
  | EmptyString => true
  | String c s' => p c && all_chars p s'
  end.

(** [s.strip()] *)
Definition strip (s : string) : string :=
  rev_str (lstrip (rev_str (lstrip s) EmptyString)) EmptyString.

End Str.

(** ** Base64 (CPython's [base64] / [binascii]) *)
Module B64.

(** [table_a2b_base64]: the value of a character of the standard alphabet. *)
Definition a2b (c : ascii) : option Z :=
  let n := Z.of_nat (nat_of_ascii c) in
  if (65 <=? n) && (n <=? 90) then Some (n - 65)
  else if (97 <=? n) && (n <=? 122) then Some (n - 71)
  else if (48 <=? n) && (n <=? 57) then Some (n + 4)
  else if n =? 43 then Some 62
  else if n =? 47 then Some 63
  else None.

(** [table_b2a_base64] *)
Definition b2a (v : Z) : ascii :=
  ascii_of_nat (Z.to_nat
    (if v <? 26 then v + 65
     else if v <? 52 then v + 71
     else if v <? 62 then v - 4
     else if v =? 62 then 43 else 47)).

Definition PAD : ascii := "=".

(** The main loop of [binascii.a2b_base64] with [strict_mode=False]
    (CPython 3.11+): [quad_pos], [leftchar] and [pads] are the C locals,
    [acc] the bytes written so far, in reverse. *)
Fixpoint a2b_loop (s : list ascii) (quad_pos : nat) (leftchar : Z)
    (pads : nat) (acc : list Z) : outcome (list Z) :=
  match s with
  | [] =>
      match quad_pos with
      | O => Returned (rev acc)
      | 1%nat => Raised (BinasciiError "Invalid base64-encoded string")
      | _ => Raised (BinasciiError "Incorrect padding")
      end
  | c :: s' =>
      if Ascii.eqb c PAD then
        (* if (quad_pos >= 2 && quad_pos + ++pads >= 4) goto done; *)
        if (2 <=? quad_pos)%nat then
          if (4 <=? quad_pos + S pads)%nat then Returned (rev acc)
          else a2b_loop s' quad_pos leftchar (S pads) acc
        else a2b_loop s' quad_pos leftchar pads acc
      else
        match a2b c with
        | None => a2b_loop s' quad_pos leftchar pads acc
        | Some this_ch =>
            match quad_pos with
            | O => a2b_loop s' 1 this_ch 0 acc
            | 1%nat =>
                a2b_loop s' 2 (Z.land this_ch 15) 0
                  (Z.land (Z.lor (Z.shiftl leftchar 2) (Z.shiftr this_ch 4)) 255 :: acc)
            | 2%nat =>
                a2b_loop s' 3 (Z.land this_ch 3) 0
                  (Z.land (Z.lor (Z.shiftl leftchar 4) (Z.shiftr this_ch 2)) 255 :: acc)
            | _ =>
                a2b_loop s' 0 0 0
                  (Z.land (Z.lor (Z.shiftl leftchar 6) this_ch) 255 :: acc)
            end
        end
  end.

(** [base64.b64decode(s)] for a [str] argument: [s.encode('ascii')]
    (a [ValueError] on a non-ASCII character), then [a2b_base64]. *)
Definition b64decode (s : string) : outcome (list Z) :=
  let cs := list_ascii_of_string s in
  if forallb (fun c => (nat_of_ascii c <? 128)%nat) cs
  then a2b_loop cs 0 0 0 []
  else Raised (ValueError "string argument should contain only ASCII characters").

(** [binascii.b2a_base64(b, newline=False)], group by group of three
    bytes, with the padded tail of one or two bytes. *)
Fixpoint b2a_chars (b : list Z) : list ascii :=
  match b with
  | [] => []
  | [b0] =>
      [b2a (Z.shiftr b0 2); b2a (Z.shiftl (Z.land b0 3) 4); PAD; PAD]
  | [b0; b1] =>
      [b2a (Z.shiftr b0 2);
       b2a (Z.lor (Z.shiftl (Z.land b0 3) 4) (Z.shiftr b1 4));
       b2a (Z.shiftl (Z.land b1 15) 2); PAD]
  | b0 :: b1 :: b2 :: rest =>
      b2a (Z.shiftr b0 2)
      :: b2a (Z.lor (Z.shiftl (Z.land b0 3) 4) (Z.shiftr b1 4))
      :: b2a (Z.lor (Z.shiftl (Z.land b1 15) 2) (Z.shiftr b2 6))
      :: b2a (Z.land b2 63) :: b2a_chars rest
  end.

(** [base64.b64encode(b).decode('ascii')] *)
Definition b64encode (b : list Z) : string := string_of_list_ascii (b2a_chars b).

Definition is_byte (z : Z) : Prop := 0 <= z < 256.

(** A run of pad characters. *)
Definition all_pad (l : list ascii) : bool := forallb (fun c => Ascii.eqb c PAD) l.

(** A character of Base64 text: the alphabet or the pad. *)
Definition is_b64_char (c : ascii) : bool :=
  match a2b c with Some _ => true | None => Ascii.eqb c PAD end.

End B64.

(** ** [uuid.uuid4().hex] *)
Module Uuid.

Definition hexchar (d : Z) : ascii :=
  ascii_of_nat (Z.to_nat (if d <? 10 then 48 + d else 87 + d)).

(** The hexadecimal digits of [n], most significant first
    ([fuel] bounds the number of digits). *)
Fixpoint hex_digits (fuel : nat) (n : Z) (acc : list ascii) : list ascii :=
  match fuel with
  | O => acc
  | S f =>
      let acc' := hexchar (n mod 16) :: acc in
      if n <? 16 then acc' else hex_digits f (n / 16) acc'
  end.

(** ['%032x' % n] for [n >= 0]: lowercase hexadecimal, zero-padded on
    the left to 32 characters. *)
Definition format_032x (n : Z) : string :=
  let ds := hex_digits (S (Z.to_nat (Z.log2 n))) n [] in
  string_of_list_ascii (repeat "0"%char (32 - length ds) ++ ds).

(** [UUID(bytes=os.urandom(16), version=4).int], where [r] is
    [int.from_bytes(os.urandom(16), 'big')]: the RFC 4122 variant bits
    and the version nibble overwrite six of the 128 random bits. *)
Definition uuid4_int (r : Z) : Z :=
  let i := Z.land r (Z.lnot (Z.shiftl 49152 48)) in   (* int &= ~(0xc000 << 48) *)
  let i := Z.lor i (Z.shiftl 32768 48) in               (* int |= 0x8000 << 48 *)
  let i := Z.land i (Z.lnot (Z.shiftl 61440 64)) in     (* int &= ~(0xf000 << 64) *)
  Z.lor i (Z.shiftl 4 76).                              (* int |= version << 76 *)

(** [uuid.uuid4().hex] *)
Definition uuid4_hex (r : Z) : string := format_032x (uuid4_int r).

Definition is_lower_hex (c : ascii) : bool :=
  let n := nat_of_ascii c in
  ((48 <=? n) && (n <=? 57))%nat || ((97 <=? n) && (n <=? 102))%nat.

(** [int(h, 16)] on lowercase hexadecimal digits: reads a [.hex] string
    back as the integer it was written from. *)
Definition hexval (c : ascii) : Z :=
  let n := Z.of_nat (nat_of_ascii c) in
  if n <? 58 then n - 48 else n - 87.

Definition parse_hex (l : list ascii) : Z :=
  fold_left (fun v c => 16 * v + hexval c) l 0.

(** The bits [uuid4_int] overwrites: the variant (62, 63) and the
    version (76 to 79). *)
Definition fixed_bits : list Z := [62; 63; 76; 77; 78; 79].

End Uuid.

(** ** [VisualizationTool.upload_to_gcs] *)
Module Upload.

(** The google-cloud-storage client and the random source, as seen by
    one call.  [urandom128] is [int.from_bytes(os.urandom(16), 'big')],
    read by [uuid.uuid4()].  [write_object bucket blob data content_type] is
    [blob.upload_from_string] (with [storage.Client()] and the bucket
    lookup): [Some e] when it raises [e].  [generate_signed_url bucket
    blob minutes method] is [blob.generate_signed_url] (with
    [datetime.timedelta]): [None] when it raises, whatever the exception. *)
Record storage_env := {
  urandom128 : Z;
  write_object : string -> string -> list Z -> string -> option exn;
  generate_signed_url : string -> string -> Z -> string -> option string
}.

(** The calls made to the storage service. *)
Inductive event :=
| EvWrite (bucket blob : string) (data : list Z) (content_type : string)
| EvSign (bucket blob : string) (minutes : Z) (method : string).

(** The returned dict. *)
Record upload_result := {
  gcs_uri : string;
  url : string;
  markdown : string;
  blob_name : string;
  expiration_minutes : Z
}.

(** [if "," in png_base64: png_base64 = png_base64.split(",", 1)[1].strip()] *)
Definition strip_data_uri (png_base64 : string) : string :=
  if Str.contains "," png_base64
  then Str.strip (Str.after_first "," png_base64)
  else png_base64.

(** [png_bytes = base64.b64decode(png_base64 + "==")] *)
Definition decode_payload (png_base64 : string) : outcome (list Z) :=
  B64.b64decode (strip_data_uri png_base64 ++ "==").

(** [f"census_charts/{uuid.uuid4().hex}.png"] *)
Definition generated_blob_name (r : Z) : string :=
  "census_charts/" ++ Uuid.uuid4_hex r ++ ".png".

Definition resolve_blob_name (env : storage_env) (blob_name : option string) : string :=
  match blob_name with
  | None => generated_blob_name (urandom128 env)
  | Some b => b
  end.

Definition upload_to_gcs (env : storage_env) (png_base64 bucket_name : string)
    (blob_name : option string) (expiration_minutes : Z)
    : list event * outcome upload_result :=
  match decode_payload png_base64 with
  | Raised e => ([], Raised e)
  | Returned png_bytes =>
      let blob := resolve_blob_name env blob_name in
      let ev_write := EvWrite bucket_name blob png_bytes "image/png" in
      match write_object env bucket_name blob png_bytes "image/png" with
      | Some e => ([ev_write], Raised e)
      | None =>
          let gcs_uri := "gs://" ++ bucket_name ++ "/" ++ blob in
          let ev_sign := EvSign bucket_name blob expiration_minutes "GET" in
          let url :=
            match generate_signed_url env bucket_name blob expiration_minutes "GET" with
            | Some signed_url => signed_url
            | None => ""
            end in
          ([ev_write; ev_sign],
           Returned {| gcs_uri := gcs_uri;
                       url := url;
                       markdown := "![Census Chart](" ++ url ++ ")";
                       blob_name := blob;
                       expiration_minutes := expiration_minutes |})
      end
  end.

End Upload.

(** ** [VisualizationTool.plot_from_rows] and [plot_from_dataframe] *)
Module Render.

(** Cell values of the records: Python [int], [float] (an IEEE binary64
    value) and [str]. *)
Inductive value :=
| VInt (z : Z)
| VFloat (f : spec_float)
| VStr (s : string).

(** A dict record: column name to value. *)
Definition record := list (string * value).

Fixpoint lookup (k : string) (r : record) : option value :=
  match r with
  | [] => None
  | (k', v) :: r' => if String.eqb k k' then Some v else lookup k r'
  end.

(** A DataFrame: its columns and its rows; a column a row lacks is NaN
    in that row. *)
Record frame := { columns : list string; rows : list record }.

Definition add_keys (cols : list string) (r : record) : list string :=
  fold_left (fun cs kv => if existsb (String.eqb (fst kv)) cs then cs else (cs ++ [fst kv])%list)
    r cols.

(** [pd.DataFrame(rows)]: the columns in order of first appearance. *)
Definition df_from_rows (rs : list record) : frame :=
  {| columns := fold_left add_keys rs []; rows := rs |}.

Definition mem_column (c : string) (df : frame) : bool :=
  existsb (String.eqb c) (columns df).

(** The dtype pandas infers for a column of records
    ([maybe_convert_objects] on the column, a missing key being [np.nan]). *)
Inductive dtype :=
| DInt     (* int64 or uint64: every cell an int, all in range *)
| DFloat   (* float64: a float or a NaN cell, every int converted *)
| DObject. (* object: a str, or ints no 64-bit integer type holds *)

(** An int that neither int64 nor uint64 holds. *)
Definition int_out_of_range (z : Z) : bool := (z <? - 2 ^ 63) || (2 ^ 64 <=? z).

Definition column_dtype (y : string) (rs : list record) : dtype :=
  let cells := map (lookup y) rs in
  if existsb (fun c => match c with
                       | Some (VStr _) => true
                       | Some (VInt z) => int_out_of_range z
                       | _ => false end) cells
     || (existsb (fun c => match c with Some (VInt z) => 2 ^ 63 <=? z | _ => false end) cells
         && existsb (fun c => match c with Some (VInt z) => z <? 0 | _ => false end) cells)
  then DObject
  else if existsb (fun c => match c with None | Some (VFloat _) => true | _ => false end) cells
  then DFloat
  else DInt.

(** The column has a numeric dtype ([nlargest] accepts it). *)
Definition numeric_column (y : string) (rs : list record) : bool :=
  match column_dtype y rs with DObject => false | _ => true end.

(** [float(z)]: the binary64 nearest to [z], ties to even. *)
Definition to_float64 (z : Z) : spec_float := binary_normalize 53 1024 z 0 false.

(** A binary64 as an integer of the same order: a finite value times
    [2^1074] (exact for every double), infinities beyond every finite
    value. *)
Definition float_key (f : spec_float) : Z :=
  match f with
  | S754_zero _ => 0
  | S754_infinity s => if s then - 2 ^ 2100 else 2 ^ 2100
  | S754_nan => 0
  | S754_finite s m e => (if s then Z.neg m else Z.pos m) * 2 ^ (e + 1074)
  end.

(** The non-NaN value of column [y] in a row, in a column of dtype [dt]
    (0 when the row has none; used on non-NaN rows only). *)
Definition ykey (dt : dtype) (y : string) (r : record) : Z :=
  match lookup y r with
  | Some (VInt z) => match dt with DFloat => float_key (to_float64 z) | _ => z end
  | Some (VFloat f) => float_key f
  | _ => 0
  end.

(** The row is NaN in column [y]: the key is missing or the float is NaN. *)
Definition is_nan (y : string) (r : record) : bool :=
  match lookup y r with None => true | Some (VFloat S754_nan) => true | _ => false end.

(** [a] comes before [b] in descending [y] order. *)
Definition desc (dt : dtype) (y : string) (a b : record) : Prop := ykey dt y b <= ykey dt y a.

(** Stable insertion into a list sorted by descending [y]: [r] comes
    from before the rows of [l] in the frame and stays ahead of the rows
    with an equal value. *)
Fixpoint insert_desc (dt : dtype) (y : string) (r : record) (l : list record) : list record :=
  match l with
  | [] => [r]
  | h :: t => if ykey dt y h <=? ykey dt y r then r :: l else h :: insert_desc dt y r t
  end.

Fixpoint sort_desc (dt : dtype) (y : string) (l : list record) : list record :=
  match l with
  | [] => []
  | r :: l' => insert_desc dt y r (sort_desc dt y l')
  end.

(** [df.nlargest(n, y)] (keep='first'): [KeyError] for a missing column,
    [TypeError] for a column of object dtype, no rows for [n <= 0];
    otherwise the non-NaN rows by descending [y], then the NaN rows, cut
    to [n] rows.  Equal values are kept in frame order here, as the
    stable sort pandas uses for [n < len(df)] does; for [n >= len(df)]
    pandas sorts with [sort_values] (quicksort), whose order of equal
    values is unspecified, so the properties below never depend on the
    order of equal values. *)
Definition nlargest (n : Z) (y : string) (df : frame) : outcome frame :=
  if negb (mem_column y df) then Raised (KeyError y)
  else let dt := column_dtype y (rows df) in
  match dt with
  | DObject => Raised (TypeError "Column is not of a numeric dtype")
  | _ =>
      if n <=? 0 then Returned {| columns := columns df; rows := [] |}
      else Returned {| columns := columns df;
                       rows := firstn (Z.to_nat n)
                                 (sort_desc dt y (filter (fun r => negb (is_nan y r)) (rows df))
                                  ++ filter (is_nan y) (rows df))%list |}
  end.

(** The seaborn plotting function picked by [kind]. *)
Inductive strategy :=
| Barplot (palette : option string)
| Lineplot
| Scatterplot.

Definition select_strategy (kind : string) : strategy :=
  if String.eqb kind "bar" then Barplot (Some "viridis")
  else if String.eqb kind "line" then Lineplot
  else if String.eqb kind "scatter" then Scatterplot
  else Barplot None.

(** The calls made to matplotlib and seaborn. *)
Inductive event :=
| EvSubplots (figsize : Z * Z)
| EvDraw (s : strategy) (data : frame) (x y : string)
| EvTitle (t : string)
| EvXticks (rotation : Z) (ha : string)
| EvTightLayout
| EvSavefig (format : string) (dpi : Z).

(** The plotting libraries: [subplots figsize] is [plt.subplots] ([Some e]
    when it raises [e], e.g. [ValueError] for a negative size);
    [draw s df x y] the seaborn call; [savefig evs] the PNG bytes
    [fig.savefig] writes for the figure built by the calls [evs], or the
    exception it raises (e.g. [ValueError] for an image too large). *)
Record plot_env := {
  subplots : Z * Z -> option exn;
  draw : strategy -> frame -> string -> string -> option exn;
  savefig : list event -> outcome (list Z)
}.

(** The returned dict. *)
Record render_result := {
  png_base64 : string;
  data_uri : string;
  width : Z;
  height : Z;
  format : string
}.

(** The frame the strategy is applied to:
    [if top_n is not None and x in df.columns: df = df.nlargest(top_n, y)] *)
Definition select_rows (df : frame) (x y : string) (top_n : option Z) : outcome frame :=
  match top_n with
  | Some n => if mem_column x df then nlargest n y df else Returned df
  | None => Returned df
  end.

Definition plot_from_dataframe (env : plot_env) (df : frame) (x y kind : string)
    (title : option string) (top_n : option Z) (figsize : Z * Z)
    (rotate_xticks : bool) : list event * outcome render_result :=
  match select_rows df x y top_n with
  | Raised e => ([], Raised e)
  | Returned df =>
      match subplots env figsize with
      | Some e => ([EvSubplots figsize], Raised e)
      | None =>
          let s := select_strategy kind in
          let evs := [EvSubplots figsize; EvDraw s df x y] in
          match draw env s df x y with
          | Some e => (evs, Raised e)
          | None =>
              let evs := (evs
                ++ (match title with Some t => if String.eqb t "" then [] else [EvTitle t]
                                    | None => [] end)
                ++ (if rotate_xticks then [EvXticks 45 "right"] else [])
                ++ [EvTightLayout; EvSavefig "png" 150])%list in
              match savefig env evs with
              | Raised e => (evs, Raised e)
              | Returned png_bytes =>
                  let png_b64 := B64.b64encode png_bytes in
                  let data_uri := "data:image/png;base64," ++ png_b64 in
                  (evs, Returned {| png_base64 := png_b64;
                                    data_uri := data_uri;
                                    width := fst figsize;
                                    height := snd figsize;
                                    format := "png" |})
              end
          end
      end
  end.

Definition plot_from_rows (env : plot_env) (rs : list record) (x y kind : string)
    (title : option string) (top_n : option Z) (figsize : Z * Z)
    (rotate_xticks : bool) : list event * outcome render_result :=
  plot_from_dataframe env (df_from_rows rs) x y kind title top_n figsize rotate_xticks.

(** The frames the plotting strategies were applied to in a trace. *)
Definition drawn_frames (evs : list event) : list frame :=
  flat_map (fun ev => match ev with EvDraw _ d _ _ => [d] | _ => [] end) evs.

End Render.

(** ** The agent tools of [agent.py] *)
Module Agent.

Definition GCS_CHART_BUCKET : string := "census_query_tool_project".

(** [viz.upload_to_gcs(png_base64=..., bucket_name=GCS_CHART_BUCKET,
    blob_name=blob_name if blob_name else None)], with the default
    [expiration_minutes=60]. *)
Definition upload_chart_to_gcs (env : Upload.storage_env) (png_base64 : string)
    (blob_name : string) : list Upload.event * outcome Upload.upload_result :=
  Upload.upload_to_gcs env png_base64 GCS_CHART_BUCKET
    (if String.eqb blob_name "" then None else Some blob_name) 60.

(** [create_chart(rows, x, y, kind, title)]:
    [viz.plot_from_rows(rows=rows, x=x, y=y, kind=kind, title=title)] with
    the defaults [top_n=None], [figsize=(8, 4)], [rotate_xticks=True]. *)
Definition create_chart (env : Render.plot_env) (rows : list Render.record)
    (x y kind title : string) : list Render.event * outcome Render.render_result :=
  Render.plot_from_rows env rows x y kind (Some title) None (8, 4) true.

End Agent.

(** ** The routes of [app.py] *)
Module App.

(** [GET /chart/{chart_id}] over the dict [CHART_STORE] of stored PNG
    bytes (imported from [agent.py], which does not define it; here it is
    an argument):
    [CHART_STORE.get(chart_id)], 404 when it is [None] or empty, else the
    bytes with media type ["image/png"]. *)
Fixpoint store_get (store : list (string * list Z)) (k : string) : option (list Z) :=
  match store with
  | [] => None
  | (k', v) :: store' => if String.eqb k k' then Some v else store_get store' k
  end.

Definition get_chart (store : list (string * list Z)) (chart_id : string)
    : outcome (list Z * string) :=
  match store_get store chart_id with
  | None | Some [] => Raised (HTTPException 404 "Chart not found")
  | Some png_bytes => Returned (png_bytes, "image/png")
  end.

(** JSON values of the request body. *)
Inductive json :=
| JStr (s : string)
| JNum (z : Z)
| JBool (b : bool)
| JNull.

Definition json_eqb (a b : json) : bool :=
  match a, b with
  | JStr s, JStr t => String.eqb s t
  | JNum z, JNum w => Z.eqb z w
  | JBool c, JBool d => Bool.eqb c d
  | JNull, JNull => true
  | _, _ => false
  end.

Fixpoint body_get (body : list (string * json)) (k : string) (default : json) : json :=
  match body with
  | [] => default
  | (k', v) :: body' => if String.eqb k k' then v else body_get body' k default
  end.

(** An event of [runner.run_async]: [is_final_response()], and the
    [content.parts] ([None] when the event has no content or no parts),
    each part with its [text]. *)
Record agent_event := {
  is_final : bool;
  parts : option (list (option string))
}.

(** The agent runner: [run sid msg] is the stream of events of one run
    of [runner.run_async], or the exception it raises.  The in-memory
    session service is threaded through [chat] as the list of the
    session ids of user ["user"]. *)
Record chat_env := {
  run : json -> string -> outcome (list agent_event)
}.

(** The texts collected from the events: the non-empty texts of the
    parts of the final responses, in order. *)
Definition event_texts (ev : agent_event) : list string :=
  if is_final ev then
    match parts ev with
    | Some ((_ :: _) as ps) =>
        flat_map (fun p => match p with
                           | Some t => if String.eqb t "" then [] else [t]
                           | None => []
                           end) ps
    | _ => []
    end
  else [].

Definition response_text (evs : list agent_event) : string :=
  String.concat "" (flat_map event_texts evs).

(** [POST /chat]: the sessions before and after the call, and the
    [response] text.  [message] must be a string ([.strip()] raises
    otherwise); a blank one is a 400; an absent session is created before
    the run. *)
Definition chat (env : chat_env) (sessions : list json) (body : list (string * json))
    : list json * outcome string :=
  match body_get body "message" (JStr "") with
  | JStr m =>
      let user_message := Str.strip m in
      let session_id := body_get body "session_id" (JStr "default") in
      if String.eqb user_message "" then
        (sessions, Raised (HTTPException 400 "'message' field is required"))
      else
        let sessions' := if existsb (json_eqb session_id) sessions
                         then sessions else (sessions ++ [session_id])%list in
        match run env session_id user_message with
        | Raised e => (sessions', Raised e)
        | Returned evs => (sessions', Returned (response_text evs))
        end
  | _ => (sessions, Raised (AttributeError "'message' has no attribute 'strip'"))
  end.

End App.

(** ** Example inputs *)

(** An upload whose signing call raises. *)
Definition env_sign_fails : Upload.storage_env :=
  {| Upload.urandom128 := 7;
     Upload.write_object := fun _ _ _ _ => None;
     Upload.generate_signed_url := fun _ _ _ _ => None |}.

(** A plotting library that creates every figure, draws everything and
    writes a fixed PNG signature. *)
Definition env_plot_ok : Render.plot_env :=
  {| Render.subplots := fun _ => None;
     Render.draw := fun _ _ _ _ => None;
     Render.savefig := fun _ => Returned [137; 80; 78; 71; 13; 10; 26; 10] |}.

Definition example_rows : list Render.record :=
  [[("area", Render.VStr "A"); ("pct", Render.VInt 10)];
   [("area", Render.VStr "B"); ("pct", Render.VInt 90)]].

(** Rows of which the second has no value in ["pct"]. *)
Definition example_rows_nan : list Render.record :=
  [[("area", Render.VStr "A"); ("pct", Render.VInt 10)];
   [("area", Render.VStr "B")];
   [("area", Render.VStr "C"); ("pct", Render.VInt 5)]].

(** * Properties *)

Ltac run_upload :=
  unfold Upload.upload_to_gcs in *;
  repeat match goal with
  | H : context [match ?d with Returned _ => _ | Raised _ => _ end] |- _ =>
      destruct d eqn:?
  | H : context [match ?d with Some _ => _ | None => _ end] |- _ =>
      destruct d eqn:?
  end.

Ltac run_render :=
  unfold Render.plot_from_rows, Render.plot_from_dataframe in *;
  repeat match goal with
  | H : context [match ?d with Returned _ => _ | Raised _ => _ end] |- _ =>
      destruct d eqn:?
  | H : context [match Render.subplots ?env ?fs with Some _ => _ | None => _ end] |- _ =>
      destruct (Render.subplots env fs) eqn:?
  | H : context [match Render.draw ?env ?s ?d ?x ?y with Some _ => _ | None => _ end] |- _ =>
      destruct (Render.draw env s d x y) eqn:?
  end.

(** ** Object Store Publisher *)

(** C1: when the signing call of an [upload_to_gcs] run fails (raises
    anything), the run returns a result whose [url] is empty and whose
    [markdown] is ["![Census Chart]()"]; a returned [url] is non-empty
    only if the signing call made in the run succeeded with that URL; and
    every returned [markdown] is ["![Census Chart](" ++ url ++ ")"]. *)
Theorem upload_signing_failure_empty_url :
  forall env png_base64 bucket blob minutes evs res,
    Upload.upload_to_gcs env png_base64 bucket blob minutes = (evs, res) ->
    (forall b m meth,
        In (Upload.EvSign bucket b m meth) evs ->
        Upload.generate_signed_url env bucket b m meth = None ->
        exists r, res = Returned r /\ Upload.url r = ""
                  /\ Upload.markdown r = "![Census Chart]()") /\
    (forall r, res = Returned r -> Upload.url r <> "" ->
        exists b m meth,
          In (Upload.EvSign bucket b m meth) evs /\
          Upload.generate_signed_url env bucket b m meth = Some (Upload.url r)) /\
    (forall r, res = Returned r ->
        Upload.markdown r = "![Census Chart](" ++ Upload.url r ++ ")").
Proof.
  intros env png bucket blob minutes evs res H.
  unfold Upload.upload_to_gcs in H.
  destruct (Upload.decode_payload png) as [bytes | e];
    [| inversion H; subst; split; [intros ? ? ? [] | split; discriminate]].
  set (b0 := Upload.resolve_blob_name env blob) in H.
  destruct (Upload.write_object env bucket b0 bytes "image/png") as [e |];
    [inversion H; subst; split;
     [intros ? ? ? [Hin | []]; discriminate | split; discriminate] |].
  destruct (Upload.generate_signed_url env bucket b0 minutes "GET") as [u |] eqn:Hs;
    inversion H; subst; clear H; split; [| split | | split].
  - intros b m meth [Hin | [Hin | []]] Hf; [discriminate |].
    inversion Hin; subst. congruence.
  - intros r Hr Hne. inversion Hr; subst. simpl in *.
    exists b0, minutes, "GET". split; [right; left; reflexivity | exact Hs].
  - intros r Hr. inversion Hr; subst. reflexivity.
  - intros b m meth _ _. eexists. split; [reflexivity | simpl; auto].
  - intros r Hr Hne. inversion Hr; subst. simpl in Hne. congruence.
  - intros r Hr. inversion Hr; subst. reflexivity.
Qed.


Lemma upload_signing_failure_empty_url_witness :
  exists r, snd (Upload.upload_to_gcs env_sign_fails "iVBORw0KGgo=" "b" None 60) = Returned r
            /\ Upload.url r = "" /\ Upload.markdown r = "![Census Chart]()".
Proof.
  destruct (Upload.upload_to_gcs env_sign_fails "iVBORw0KGgo=" "b" None 60) as [evs res] eqn:E.
  apply (proj1 (upload_signing_failure_empty_url env_sign_fails "iVBORw0KGgo=" "b" None 60 evs res E)
           (Upload.generated_blob_name 7) 60 "GET").
  - vm_compute in E. inversion E. right; left; reflexivity.
  - reflexivity.
Defined.

(** C9: every returned [gcs_uri] is ["gs://" ++ bucket_name ++ "/" ++ blob_name],
    where [blob_name] is the resolved path: the caller's, or the generated
    one when none was given. *)
Theorem upload_gcs_uri :
  forall env png_base64 bucket blob minutes evs r,
    Upload.upload_to_gcs env png_base64 bucket blob minutes = (evs, Returned r) ->
    Upload.gcs_uri r = "gs://" ++ bucket ++ "/" ++ Upload.blob_name r /\
    Upload.blob_name r = match blob with
                         | Some b => b
                         | None => Upload.generated_blob_name (Upload.urandom128 env)
                         end.
Proof.
  intros env png bucket blob minutes evs r H.
  run_upload; inversion H; subst; simpl; split; reflexivity.
Qed.

Lemma upload_gcs_uri_witness :
  exists evs r,
    Upload.upload_to_gcs env_sign_fails "iVBORw0KGgo=" "b" (Some "c/x.png") 60 = (evs, Returned r) /\
    Upload.gcs_uri r = "gs://" ++ "b" ++ "/" ++ Upload.blob_name r /\
    Upload.blob_name r = "c/x.png".
Proof.
  do 2 eexists. split; [vm_compute; reflexivity |].
  eapply (upload_gcs_uri env_sign_fails "iVBORw0KGgo=" "b" (Some "c/x.png") 60).
  vm_compute. reflexivity.
Defined.

(** C10: [upload_chart_to_gcs] passes [None] for an empty [blob_name], so the
    path is generated; it always targets the bucket
    ["census_query_tool_project"] with [expiration_minutes = 60]. *)
Theorem agent_upload_fixed_bucket :
  forall env png_base64 blob_name,
    Agent.upload_chart_to_gcs env png_base64 "" =
      Upload.upload_to_gcs env png_base64 "census_query_tool_project" None 60 /\
    (blob_name <> "" ->
     Agent.upload_chart_to_gcs env png_base64 blob_name =
       Upload.upload_to_gcs env png_base64 "census_query_tool_project" (Some blob_name) 60) /\
    (forall ev, In ev (fst (Agent.upload_chart_to_gcs env png_base64 blob_name)) ->
       match ev with
       | Upload.EvWrite b _ _ _ => b = "census_query_tool_project"
       | Upload.EvSign b _ m _ => b = "census_query_tool_project" /\ m = 60
       end) /\
    (forall r, snd (Agent.upload_chart_to_gcs env png_base64 blob_name) = Returned r ->
       Upload.expiration_minutes r = 60 /\
       Upload.gcs_uri r = "gs://census_query_tool_project/" ++ Upload.blob_name r /\
       (blob_name = "" ->
        Upload.blob_name r = Upload.generated_blob_name (Upload.urandom128 env))).
Proof.
  intros env png blob.
  unfold Agent.upload_chart_to_gcs, Agent.GCS_CHART_BUCKET.
  split; [reflexivity |].
  split.
  { intros Hne. apply String.eqb_neq in Hne. rewrite Hne. reflexivity. }
  destruct (String.eqb blob "") eqn:Hb.
  - apply String.eqb_eq in Hb. subst blob.
    unfold Upload.upload_to_gcs.
    destruct (Upload.decode_payload png); [| split; [intros ev [] | discriminate]].
    destruct (Upload.write_object _ _ _ _ _);
      [split; [intros ev [Hev | []]; subst; reflexivity | discriminate] |].
    split.
    + intros ev [Hev | [Hev | []]]; subst; simpl; auto.
    + intros r Hr. inversion Hr; subst. simpl. auto.
  - unfold Upload.upload_to_gcs.
    destruct (Upload.decode_payload png); [| split; [intros ev [] | discriminate]].
    destruct (Upload.write_object _ _ _ _ _);
      [split; [intros ev [Hev | []]; subst; reflexivity | discriminate] |].
    split.
    + intros ev [Hev | [Hev | []]]; subst; simpl; auto.
    + intros r Hr. inversion Hr; subst. simpl.
      split; [reflexivity | split; [reflexivity |]].
      intros Heq. subst blob. discriminate.
Qed.

(** ** Chart Renderer *)

(** C4: the [data_uri] of every returned render result is
    ["data:image/png;base64," ++ png_base64] of the same result. *)
Theorem render_data_uri :
  forall env rs x y kind title top_n figsize rotate evs r,
    Render.plot_from_rows env rs x y kind title top_n figsize rotate = (evs, Returned r) ->
    Render.data_uri r = "data:image/png;base64," ++ Render.png_base64 r.
Proof.
  intros env rs x y kind title top_n figsize rotate evs r H.
  run_render; inversion H; subst; reflexivity.
Qed.



Lemma render_data_uri_witness :
  exists evs r,
    Render.plot_from_rows env_plot_ok example_rows "area" "pct" "bar" None None (8, 4) true
      = (evs, Returned r) /\
    Render.data_uri r = "data:image/png;base64," ++ Render.png_base64 r.
Proof.
  do 2 eexists. split; [vm_compute; reflexivity |].
  eapply (render_data_uri env_plot_ok example_rows "area" "pct" "bar" None None (8, 4) true).
  vm_compute. reflexivity.
Defined.

(** C5: every returned render result carries the requested [figsize] as
    [width] and [height] and the format tag ["png"]. *)
Theorem render_size_and_format :
  forall env rs x y kind title top_n figsize rotate evs r,
    Render.plot_from_rows env rs x y kind title top_n figsize rotate = (evs, Returned r) ->
    Render.width r = fst figsize /\ Render.height r = snd figsize /\ Render.format r = "png".
Proof.
  intros env rs x y kind title top_n figsize rotate evs r H.
  run_render; inversion H; subst; simpl; auto.
Qed.

Lemma render_size_and_format_witness :
  exists evs r,
    Render.plot_from_rows env_plot_ok example_rows "area" "pct" "line" (Some "t") None (10, 6) false
      = (evs, Returned r) /\
    Render.width r = 10 /\ Render.height r = 6 /\ Render.format r = "png".
Proof.
  do 2 eexists. split; [vm_compute; reflexivity |].
  eapply (render_size_and_format env_plot_ok example_rows "area" "pct" "line" (Some "t") None (10, 6) false).
  vm_compute. reflexivity.
Defined.

(** ** Text preprocessing of [upload_to_gcs] *)

Lemma b64_char_not_space_comma :
  forall c, B64.is_b64_char c = true -> Str.isspace c = false /\ Ascii.eqb "," c = false.
Proof.
  intros [b0 b1 b2 b3 b4 b5 b6 b7].
  destruct b0, b1, b2, b3, b4, b5, b6, b7; vm_compute;
    intros H; solve [discriminate | split; reflexivity].
Qed.

Lemma contains_comma_b64 :
  forall s, Str.all_chars B64.is_b64_char s = true -> Str.contains "," s = false.
Proof.
  induction s as [| c s IH]; cbn [Str.contains Str.all_chars]; intros H; [reflexivity |].
  apply andb_prop in H as [Hc Hs].
  rewrite (proj2 (b64_char_not_space_comma c Hc)), (IH Hs). reflexivity.
Qed.

Lemma lstrip_nospace :
  forall s, Str.all_chars (fun c => negb (Str.isspace c)) s = true -> Str.lstrip s = s.
Proof.
  destruct s as [| c s]; simpl; intros H; [reflexivity |].
  apply andb_prop in H as [Hc _]. destruct (Str.isspace c); [discriminate | reflexivity].
Qed.

Lemma all_chars_rev_str :
  forall p s acc, Str.all_chars p s = true -> Str.all_chars p acc = true ->
    Str.all_chars p (Str.rev_str s acc) = true.
Proof.
  intros p. induction s as [| c s IH]; simpl; intros acc Hs Hacc; [exact Hacc |].
  apply andb_prop in Hs as [Hc Hs]. apply IH; [exact Hs | simpl; rewrite Hc; exact Hacc].
Qed.

Lemma rev_str_rev_str :
  forall s acc acc', Str.rev_str (Str.rev_str s acc) acc' = Str.rev_str acc (s ++ acc').
Proof.
  induction s as [| c s IH]; simpl; intros acc acc'; [reflexivity |].
  rewrite IH. reflexivity.
Qed.

Lemma append_nil_r : forall s, (s ++ "")%string = s.
Proof. induction s as [| c s IH]; simpl; [reflexivity | rewrite IH; reflexivity]. Qed.

Lemma strip_nospace :
  forall s, Str.all_chars (fun c => negb (Str.isspace c)) s = true -> Str.strip s = s.
Proof.
  intros s H. unfold Str.strip.
  rewrite (lstrip_nospace s H).
  rewrite lstrip_nospace by (apply all_chars_rev_str; [exact H | reflexivity]).
  rewrite rev_str_rev_str. simpl. rewrite append_nil_r. reflexivity.
Qed.

Lemma b64_text_nospace :
  forall s, Str.all_chars B64.is_b64_char s = true ->
    Str.all_chars (fun c => negb (Str.isspace c)) s = true.
Proof.
  induction s as [| c s IH]; simpl; intros H; [reflexivity |].
  apply andb_prop in H as [Hc Hs].
  rewrite (proj1 (b64_char_not_space_comma c Hc)), (IH Hs). reflexivity.
Qed.

(** C6: a data URI ["data:image/png;base64," ++ X] over Base64 text [X] is
    cut after its first comma, so the payload decoded (and the whole
    upload) is the one of [X] itself; a text without a comma is decoded
    as it is (with the appended ["=="]). *)
Theorem upload_strips_data_uri :
  forall X env bucket blob minutes,
    Str.all_chars B64.is_b64_char X = true ->
    Upload.strip_data_uri ("data:image/png;base64," ++ X) = X /\
    Upload.decode_payload ("data:image/png;base64," ++ X) = Upload.decode_payload X /\
    Upload.upload_to_gcs env ("data:image/png;base64," ++ X) bucket blob minutes =
      Upload.upload_to_gcs env X bucket blob minutes /\
    (forall s, Str.contains "," s = false ->
       Upload.decode_payload s = B64.b64decode (s ++ "==")).
Proof.
  intros X env bucket blob minutes HX.
  assert (Hstrip : Upload.strip_data_uri ("data:image/png;base64," ++ X) = X).
  { unfold Upload.strip_data_uri. simpl. apply strip_nospace, b64_text_nospace, HX. }
  assert (HX' : Upload.strip_data_uri X = X).
  { unfold Upload.strip_data_uri. rewrite (contains_comma_b64 X HX). reflexivity. }
  assert (Hdec : Upload.decode_payload ("data:image/png;base64," ++ X) = Upload.decode_payload X).
  { unfold Upload.decode_payload. rewrite Hstrip, HX'. reflexivity. }
  split; [exact Hstrip |]. split; [exact Hdec |]. split.
  - unfold Upload.upload_to_gcs. rewrite Hdec. reflexivity.
  - intros s Hs. unfold Upload.decode_payload, Upload.strip_data_uri. rewrite Hs. reflexivity.
Qed.

Lemma upload_strips_data_uri_witness :
  Upload.decode_payload ("data:image/png;base64," ++ "iVBORw0KGgo=") =
    Upload.decode_payload "iVBORw0KGgo=".
Proof.
  exact (proj1 (proj2 (upload_strips_data_uri "iVBORw0KGgo=" env_sign_fails "b" None 60
                         (eq_refl true)))).
Defined.

(** ** Base64 round trip *)

(** A boolean property of all integers of [[0, n)], checked by evaluation. *)
Lemma range_check :
  forall (f : Z -> bool) (n : nat),
    forallb (fun k => f (Z.of_nat k)) (seq 0 n) = true ->
    forall z, 0 <= z < Z.of_nat n -> f z = true.
Proof.
  intros f n H z Hz.
  rewrite forallb_forall in H.
  replace z with (Z.of_nat (Z.to_nat z)) by lia.
  apply H. apply in_seq. lia.
Qed.

Lemma range_check2 :
  forall (f : Z -> Z -> bool) (n m : nat),
    forallb (fun k => forallb (fun l => f (Z.of_nat k) (Z.of_nat l)) (seq 0 m)) (seq 0 n) = true ->
    forall z w, 0 <= z < Z.of_nat n -> 0 <= w < Z.of_nat m -> f z w = true.
Proof.
  intros f n m H z w Hz Hw.
  pose proof (range_check (fun z => forallb (fun l => f z (Z.of_nat l)) (seq 0 m)) n H z Hz) as Hz'.
  exact (range_check (f z) m Hz' w Hw).
Qed.

(** Every sextet is written as an alphabet character, read back as itself. *)
Lemma a2b_b2a :
  forall v, 0 <= v < 64 ->
    B64.a2b (B64.b2a v) = Some v /\ Ascii.eqb (B64.b2a v) B64.PAD = false /\
    (nat_of_ascii (B64.b2a v) < 128)%nat.
Proof.
  intros v Hv.
  pose proof (range_check
    (fun v => match B64.a2b (B64.b2a v) with Some w => Z.eqb w v | None => false end
              && negb (Ascii.eqb (B64.b2a v) B64.PAD)
              && (nat_of_ascii (B64.b2a v) <? 128)%nat) 64 eq_refl v Hv) as H.
  cbv beta in H.
  destruct (B64.a2b (B64.b2a v)) as [w |]; [| discriminate].
  apply andb_prop in H as [H H3]. apply andb_prop in H as [H1 H2].
  apply Z.eqb_eq in H1. apply negb_true_iff in H2. apply Nat.ltb_lt in H3.
  subst. auto.
Qed.

(** The sextets of a group of three bytes, and the bytes the decoder
    rebuilds from them. *)
Lemma byte_hi_bound : forall b, 0 <= b < 256 -> 0 <= Z.shiftr b 2 < 64 /\
  0 <= Z.shiftr b 4 < 16 /\ 0 <= Z.shiftr b 6 < 4 /\ 0 <= Z.land b 3 < 4 /\
  0 <= Z.land b 15 < 16 /\ 0 <= Z.land b 63 < 64.
Proof.
  intros b Hb.
  pose proof (range_check (fun b =>
     (0 <=? Z.shiftr b 2) && (Z.shiftr b 2 <? 64) && (0 <=? Z.shiftr b 4) && (Z.shiftr b 4 <? 16)
     && (0 <=? Z.shiftr b 6) && (Z.shiftr b 6 <? 4) && (0 <=? Z.land b 3) && (Z.land b 3 <? 4)
     && (0 <=? Z.land b 15) && (Z.land b 15 <? 16) && (0 <=? Z.land b 63) && (Z.land b 63 <? 64))
     256 eq_refl b Hb) as H.
  cbv beta in H.
  repeat (apply andb_prop in H as [H ?]). rewrite ?Z.leb_le, ?Z.ltb_lt in *. lia.
Qed.

Lemma sextet2_bound : forall a h, 0 <= a < 4 -> 0 <= h < 16 ->
  0 <= Z.lor (Z.shiftl a 4) h < 64.
Proof.
  intros a h Ha Hh.
  pose proof (range_check2 (fun a h => (0 <=? Z.lor (Z.shiftl a 4) h) && (Z.lor (Z.shiftl a 4) h <? 64))
    4 16 eq_refl a h Ha Hh) as H.
  cbv beta in H.
  apply andb_prop in H as [H1 H2]. rewrite Z.leb_le in H1. rewrite Z.ltb_lt in H2. lia.
Qed.

Lemma sextet3_bound : forall b c, 0 <= b < 16 -> 0 <= c < 4 ->
  0 <= Z.lor (Z.shiftl b 2) c < 64.
Proof.
  intros b c Hb Hc.
  pose proof (range_check2 (fun b c => (0 <=? Z.lor (Z.shiftl b 2) c) && (Z.lor (Z.shiftl b 2) c <? 64))
    16 4 eq_refl b c Hb Hc) as H.
  cbv beta in H.
  apply andb_prop in H as [H1 H2]. rewrite Z.leb_le in H1. rewrite Z.ltb_lt in H2. lia.
Qed.

Lemma decode_byte1 : forall a h, 0 <= a < 256 -> 0 <= h < 16 ->
  Z.land (Z.lor (Z.shiftl (Z.shiftr a 2) 2)
                (Z.shiftr (Z.lor (Z.shiftl (Z.land a 3) 4) h) 4)) 255 = a.
Proof.
  intros a h Ha Hh. apply Z.eqb_eq.
  exact (range_check2 (fun a h => Z.eqb (Z.land (Z.lor (Z.shiftl (Z.shiftr a 2) 2)
                (Z.shiftr (Z.lor (Z.shiftl (Z.land a 3) 4) h) 4)) 255) a) 256 16 eq_refl a h Ha Hh).
Qed.

Lemma decode_byte2 : forall a b c, 0 <= a < 4 -> 0 <= b < 256 -> 0 <= c < 4 ->
  Z.land (Z.lor (Z.shiftl (Z.land (Z.lor (Z.shiftl a 4) (Z.shiftr b 4)) 15) 4)
                (Z.shiftr (Z.lor (Z.shiftl (Z.land b 15) 2) c) 2)) 255 = b.
Proof.
  intros a b c Ha Hb Hc. apply Z.eqb_eq.
  assert (H : forall a, 0 <= a < 4 ->
    forallb (fun k => forallb (fun l =>
      Z.eqb (Z.land (Z.lor (Z.shiftl (Z.land (Z.lor (Z.shiftl a 4) (Z.shiftr (Z.of_nat k) 4)) 15) 4)
                (Z.shiftr (Z.lor (Z.shiftl (Z.land (Z.of_nat k) 15) 2) (Z.of_nat l)) 2)) 255)
            (Z.of_nat k)) (seq 0 4)) (seq 0 256) = true).
  { intros a' Ha'. apply (range_check (fun a => forallb (fun k => forallb (fun l =>
      Z.eqb (Z.land (Z.lor (Z.shiftl (Z.land (Z.lor (Z.shiftl a 4) (Z.shiftr (Z.of_nat k) 4)) 15) 4)
                (Z.shiftr (Z.lor (Z.shiftl (Z.land (Z.of_nat k) 15) 2) (Z.of_nat l)) 2)) 255)
            (Z.of_nat k)) (seq 0 4)) (seq 0 256)) 4); [vm_compute; reflexivity | exact Ha']. }
  exact (range_check2 (fun b c =>
      Z.eqb (Z.land (Z.lor (Z.shiftl (Z.land (Z.lor (Z.shiftl a 4) (Z.shiftr b 4)) 15) 4)
                (Z.shiftr (Z.lor (Z.shiftl (Z.land b 15) 2) c) 2)) 255) b) 256 4 (H a Ha) b c Hb Hc).
Qed.

Lemma decode_byte3 : forall b c, 0 <= b < 16 -> 0 <= c < 256 ->
  Z.land (Z.lor (Z.shiftl (Z.land (Z.lor (Z.shiftl b 2) (Z.shiftr c 6)) 3) 6) (Z.land c 63)) 255 = c.
Proof.
  intros b c Hb Hc. apply Z.eqb_eq.
  exact (range_check2 (fun b c => Z.eqb (Z.land (Z.lor (Z.shiftl (Z.land (Z.lor (Z.shiftl b 2)
     (Z.shiftr c 6)) 3) 6) (Z.land c 63)) 255) c) 16 256 eq_refl b c Hb Hc).
Qed.

(** One group of four characters takes the decoder from the start of a
    quad back to it, writing the three bytes encoded. *)
Lemma loop_group :
  forall b0 b1 b2 rest acc,
    0 <= b0 < 256 -> 0 <= b1 < 256 -> 0 <= b2 < 256 ->
    B64.a2b_loop (B64.b2a (Z.shiftr b0 2)
      :: B64.b2a (Z.lor (Z.shiftl (Z.land b0 3) 4) (Z.shiftr b1 4))
      :: B64.b2a (Z.lor (Z.shiftl (Z.land b1 15) 2) (Z.shiftr b2 6))
      :: B64.b2a (Z.land b2 63) :: rest) 0 0 0 acc
    = B64.a2b_loop rest 0 0 0 (b2 :: b1 :: b0 :: acc).
Proof.
  intros b0 b1 b2 rest acc H0 H1 H2.
  destruct (byte_hi_bound b0 H0) as (A1 & A2 & A3 & A4 & A5 & A6).
  destruct (byte_hi_bound b1 H1) as (B1 & B2 & B3 & B4 & B5 & B6).
  destruct (byte_hi_bound b2 H2) as (C1 & C2 & C3 & C4 & C5 & C6).
  destruct (a2b_b2a (Z.shiftr b0 2)) as (E1 & P1 & _); [lia |].
  destruct (a2b_b2a (Z.lor (Z.shiftl (Z.land b0 3) 4) (Z.shiftr b1 4))) as (E2 & P2 & _);
    [apply sextet2_bound; lia |].
  destruct (a2b_b2a (Z.lor (Z.shiftl (Z.land b1 15) 2) (Z.shiftr b2 6))) as (E3 & P3 & _);
    [apply sextet3_bound; lia |].
  destruct (a2b_b2a (Z.land b2 63)) as (E4 & P4 & _); [lia |].
  cbn [B64.a2b_loop]. rewrite P1, E1, P2, E2, P3, E3, P4, E4.
  rewrite (decode_byte1 b0 (Z.shiftr b1 4)) by lia.
  rewrite (decode_byte2 (Z.land b0 3) b1 (Z.shiftr b2 6)) by lia.
  rewrite (decode_byte3 (Z.land b1 15) b2) by lia.
  reflexivity.
Qed.

(** A string ending in pads splits after any leading non-pad character. *)
Lemma split_nonpad :
  forall S P c L,
    (S ++ P)%list = c :: L -> Ascii.eqb c B64.PAD = false -> B64.all_pad P = true ->
    exists S', S = c :: S' /\ (S' ++ P)%list = L.
Proof.
  intros [| d S] P c L H Hc HP.
  - simpl in H. subst P. simpl in HP. rewrite Hc in HP. discriminate.
  - simpl in H. inversion H; subst. exists S. auto.
Qed.

Lemma all_pad_app :
  forall l1 l2, B64.all_pad (l1 ++ l2) = B64.all_pad l1 && B64.all_pad l2.
Proof. intros. unfold B64.all_pad. apply forallb_app. Qed.

Lemma pads_then_two :
  forall P, B64.all_pad P = true -> exists T, (P ++ [B64.PAD; B64.PAD])%list = B64.PAD :: B64.PAD :: T.
Proof.
  intros [| p [| q P]] H; simpl in *.
  - exists []. reflexivity.
  - apply andb_prop in H as [H _]. apply Ascii.eqb_eq in H. subst. exists [B64.PAD]. reflexivity.
  - apply andb_prop in H as [Hp H]. apply andb_prop in H as [Hq _].
    apply Ascii.eqb_eq in Hp, Hq. subst. exists (P ++ [B64.PAD; B64.PAD])%list. reflexivity.
Qed.

(** The decoder, from the start of a quad, reads the encoding of [b] with
    any number of its trailing pads removed and ["=="] appended, and
    returns the bytes written so far followed by [b]. *)
Lemma decode_encoding_repadded :
  forall n b acc S P,
    (length b <= n)%nat -> Forall B64.is_byte b ->
    B64.b2a_chars b = (S ++ P)%list -> B64.all_pad P = true ->
    B64.a2b_loop (S ++ [B64.PAD; B64.PAD]) 0 0 0 acc = Returned (rev acc ++ b)%list.
Proof.
  induction n as [| n IH]; intros b acc S P Hn Hb Hchars HP.
  - destruct b; [| simpl in Hn; lia].
    destruct S; [| discriminate]. simpl. rewrite app_nil_r. reflexivity.
  - destruct b as [| b0 [| b1 [| b2 rest]]].
    + destruct S; [| discriminate]. simpl. rewrite app_nil_r. reflexivity.
    + inversion Hb as [| ? ? Hb0 _]; subst. unfold B64.is_byte in Hb0.
      destruct (byte_hi_bound b0 Hb0) as (A1 & _ & _ & A4 & _).
      destruct (a2b_b2a (Z.shiftr b0 2)) as (E1 & P1 & _); [lia |].
      assert (Hv2 : 0 <= Z.lor (Z.shiftl (Z.land b0 3) 4) 0 < 64) by (apply sextet2_bound; lia).
      rewrite Z.lor_0_r in Hv2.
      destruct (a2b_b2a (Z.shiftl (Z.land b0 3) 4)) as (E2 & P2 & _); [exact Hv2 |].
      cbn [B64.b2a_chars] in Hchars. symmetry in Hchars.
      destruct (split_nonpad _ _ _ _ Hchars P1 HP) as (S1 & -> & H1).
      destruct (split_nonpad _ _ _ _ H1 P2 HP) as (S2 & -> & H2).
      assert (HS2 : B64.all_pad S2 = true).
      { assert (B64.all_pad (S2 ++ P) = true) by (rewrite H2; reflexivity).
        rewrite all_pad_app in H. apply andb_prop in H as [H _]. exact H. }
      destruct (pads_then_two S2 HS2) as (T & HT).
      rewrite <- !app_comm_cons. rewrite HT. cbn [B64.a2b_loop]. rewrite P1, E1, P2, E2.
      rewrite <- (Z.lor_0_r (Z.shiftl (Z.land b0 3) 4)).
      rewrite (decode_byte1 b0 0) by lia. simpl. reflexivity.
    + inversion Hb as [| ? ? Hb0 Hb']; subst. inversion Hb' as [| ? ? Hb1 _]; subst.
      unfold B64.is_byte in Hb0, Hb1.
      destruct (byte_hi_bound b0 Hb0) as (A1 & A2 & A3 & A4 & A5 & A6).
      destruct (byte_hi_bound b1 Hb1) as (B1 & B2 & B3 & B4 & B5 & B6).
      destruct (a2b_b2a (Z.shiftr b0 2)) as (E1 & P1 & _); [lia |].
      destruct (a2b_b2a (Z.lor (Z.shiftl (Z.land b0 3) 4) (Z.shiftr b1 4))) as (E2 & P2 & _);
        [apply sextet2_bound; lia |].
      assert (Hv3 : 0 <= Z.lor (Z.shiftl (Z.land b1 15) 2) 0 < 64) by (apply sextet3_bound; lia).
      rewrite Z.lor_0_r in Hv3.
      destruct (a2b_b2a (Z.shiftl (Z.land b1 15) 2)) as (E3 & P3 & _); [exact Hv3 |].
      cbn [B64.b2a_chars] in Hchars. symmetry in Hchars.
      destruct (split_nonpad _ _ _ _ Hchars P1 HP) as (S1 & -> & H1).
      destruct (split_nonpad _ _ _ _ H1 P2 HP) as (S2 & -> & H2).
      destruct (split_nonpad _ _ _ _ H2 P3 HP) as (S3 & -> & H3).
      assert (HS3 : B64.all_pad S3 = true).
      { assert (B64.all_pad (S3 ++ P) = true) by (rewrite H3; reflexivity).
        rewrite all_pad_app in H. apply andb_prop in H as [H _]. exact H. }
      destruct (pads_then_two S3 HS3) as (T & HT).
      rewrite <- !app_comm_cons. rewrite HT. cbn [B64.a2b_loop]. rewrite P1, E1, P2, E2, P3, E3.
      rewrite (decode_byte1 b0 (Z.shiftr b1 4)) by lia.
      rewrite <- (Z.lor_0_r (Z.shiftl (Z.land b1 15) 2)).
      rewrite (decode_byte2 (Z.land b0 3) b1 0) by lia.
      simpl. rewrite <- app_assoc. reflexivity.
    + inversion Hb as [| ? ? Hb0 Hb']; subst. inversion Hb' as [| ? ? Hb1 Hb'']; subst.
      inversion Hb'' as [| ? ? Hb2 Hrest]; subst.
      unfold B64.is_byte in Hb0, Hb1, Hb2.
      destruct (byte_hi_bound b0 Hb0) as (A1 & A2 & A3 & A4 & A5 & A6).
      destruct (byte_hi_bound b1 Hb1) as (B1 & B2 & B3 & B4 & B5 & B6).
      destruct (byte_hi_bound b2 Hb2) as (C1 & C2 & C3 & C4 & C5 & C6).
      destruct (a2b_b2a (Z.shiftr b0 2)) as (E1 & P1 & _); [lia |].
      destruct (a2b_b2a (Z.lor (Z.shiftl (Z.land b0 3) 4) (Z.shiftr b1 4))) as (E2 & P2 & _);
        [apply sextet2_bound; lia |].
      destruct (a2b_b2a (Z.lor (Z.shiftl (Z.land b1 15) 2) (Z.shiftr b2 6))) as (E3 & P3 & _);
        [apply sextet3_bound; lia |].
      destruct (a2b_b2a (Z.land b2 63)) as (E4 & P4 & _); [lia |].
      cbn [B64.b2a_chars] in Hchars. symmetry in Hchars.
      destruct (split_nonpad _ _ _ _ Hchars P1 HP) as (S1 & -> & H1).
      destruct (split_nonpad _ _ _ _ H1 P2 HP) as (S2 & -> & H2).
      destruct (split_nonpad _ _ _ _ H2 P3 HP) as (S3 & -> & H3).
      destruct (split_nonpad _ _ _ _ H3 P4 HP) as (S4 & -> & H4).
      rewrite <- !app_comm_cons. rewrite loop_group by assumption.
      rewrite (IH rest (b2 :: b1 :: b0 :: acc) S4 P); [| simpl in Hn; lia | exact Hrest
                                                       | symmetry; exact H4 | exact HP].
      simpl. rewrite <- !app_assoc. reflexivity.
Qed.

Lemma list_ascii_of_string_app :
  forall s1 s2, list_ascii_of_string (s1 ++ s2) = (list_ascii_of_string s1 ++ list_ascii_of_string s2)%list.
Proof. induction s1 as [| c s IH]; simpl; intros s2; [reflexivity | rewrite IH; reflexivity]. Qed.

Lemma all_chars_forallb :
  forall p s, Str.all_chars p s = forallb p (list_ascii_of_string s).
Proof. induction s as [| c s IH]; simpl; [reflexivity | rewrite IH; reflexivity]. Qed.

(** Every character of an encoding is Base64 text and ASCII. *)
Lemma b2a_chars_text :
  forall n b, (length b <= n)%nat -> Forall B64.is_byte b ->
    forallb (fun c => B64.is_b64_char c && (nat_of_ascii c <? 128)%nat) (B64.b2a_chars b) = true.
Proof.
  assert (Hc : forall v, 0 <= v < 64 ->
            B64.is_b64_char (B64.b2a v) && (nat_of_ascii (B64.b2a v) <? 128)%nat = true).
  { intros v Hv. destruct (a2b_b2a v Hv) as (E & _ & L).
    unfold B64.is_b64_char. rewrite E. apply Nat.ltb_lt in L. rewrite L. reflexivity. }
  induction n as [| n IH]; intros b Hn Hb.
  - destruct b; [reflexivity | simpl in Hn; lia].
  - destruct b as [| b0 [| b1 [| b2 rest]]]; [reflexivity | | |].
    + inversion Hb as [| ? ? H0 _]; subst. destruct (byte_hi_bound b0 H0) as (A1 & _ & _ & A4 & _).
      assert (0 <= Z.lor (Z.shiftl (Z.land b0 3) 4) 0 < 64) by (apply sextet2_bound; lia).
      rewrite Z.lor_0_r in H.
      cbn [B64.b2a_chars forallb]. rewrite Hc, Hc by lia. reflexivity.
    + inversion Hb as [| ? ? H0 Hb']; subst. inversion Hb' as [| ? ? H1 _]; subst.
      destruct (byte_hi_bound b0 H0) as (A1 & _ & _ & A4 & _).
      destruct (byte_hi_bound b1 H1) as (_ & B2 & _ & _ & B5 & _).
      assert (0 <= Z.lor (Z.shiftl (Z.land b1 15) 2) 0 < 64) by (apply sextet3_bound; lia).
      rewrite Z.lor_0_r in H.
      cbn [B64.b2a_chars forallb].
      rewrite Hc, Hc, Hc by (try apply sextet2_bound; lia). reflexivity.
    + inversion Hb as [| ? ? H0 Hb']; subst. inversion Hb' as [| ? ? H1 Hb'']; subst.
      inversion Hb'' as [| ? ? H2 Hrest]; subst.
      destruct (byte_hi_bound b0 H0) as (A1 & _ & _ & A4 & _).
      destruct (byte_hi_bound b1 H1) as (_ & B2 & _ & _ & B5 & _).
      destruct (byte_hi_bound b2 H2) as (_ & _ & C3 & _ & _ & C6).
      cbn [B64.b2a_chars forallb].
      rewrite Hc, Hc, Hc, Hc by (try apply sextet2_bound; try apply sextet3_bound; lia).
      apply IH; [simpl in Hn; lia | exact Hrest].
Qed.

(** C7: [upload_to_gcs] decodes its (possibly prefix-stripped) text with
    ["=="] appended, always; so the Base64 encoding of any bytes, with
    any number of its trailing pad characters removed, is decoded to those
    bytes instead of failing on padding. *)
Theorem upload_decode_appends_padding :
  forall b s pads,
    Forall B64.is_byte b ->
    B64.b64encode b = (s ++ pads)%string ->
    Str.all_chars (fun c => Ascii.eqb c B64.PAD) pads = true ->
    Upload.decode_payload s = Returned b /\
    (forall png_base64,
       Upload.decode_payload png_base64 =
         B64.b64decode (Upload.strip_data_uri png_base64 ++ "==")).
Proof.
  intros b s pads Hb Henc Hpads.
  split; [| reflexivity].
  assert (Hl : B64.b2a_chars b = (list_ascii_of_string s ++ list_ascii_of_string pads)%list).
  { rewrite <- list_ascii_of_string_app, <- Henc. unfold B64.b64encode.
    rewrite list_ascii_of_string_of_list_ascii. reflexivity. }
  assert (Htext := b2a_chars_text (length b) b (le_n _) Hb).
  rewrite Hl, forallb_app in Htext. apply andb_prop in Htext as [Hs _].
  assert (Hs64 : Str.all_chars B64.is_b64_char s = true).
  { rewrite all_chars_forallb. rewrite forallb_forall in *.
    intros c Hin. specialize (Hs c Hin). apply andb_prop in Hs as [Hs _]. exact Hs. }
  unfold Upload.decode_payload, Upload.strip_data_uri.
  rewrite (contains_comma_b64 s Hs64).
  unfold B64.b64decode. rewrite list_ascii_of_string_app.
  rewrite forallb_app.
  assert (Hascii : forallb (fun c => (nat_of_ascii c <? 128)%nat) (list_ascii_of_string s) = true).
  { rewrite forallb_forall in *. intros c Hin. specialize (Hs c Hin).
    apply andb_prop in Hs as [_ Hs]. exact Hs. }
  rewrite Hascii. simpl andb. cbv iota.
  change (list_ascii_of_string "==") with [B64.PAD; B64.PAD].
  rewrite all_chars_forallb in Hpads.
  exact (decode_encoding_repadded (length b) b [] _ _ (le_n _) Hb Hl Hpads).
Qed.

Lemma upload_decode_appends_padding_witness :
  Upload.decode_payload "SGkhCg" = Returned [72; 105; 33; 10].
Proof.
  refine (proj1 (upload_decode_appends_padding [72; 105; 33; 10] "SGkhCg" "==" _ _ _)).
  - repeat constructor; unfold B64.is_byte; lia.
  - vm_compute. reflexivity.
  - reflexivity.
Defined.

(** ** Top-N selection *)

Section TopN.

Variable dt : Render.dtype.
Variable y : string.

Local Notation desc := (Render.desc dt y).

Lemma insert_desc_perm :
  forall r l, Permutation (Render.insert_desc dt y r l) (r :: l).
Proof.
  intros r. induction l as [| h t IH]; simpl; [reflexivity |].
  destruct (Render.ykey dt y h <=? Render.ykey dt y r); [reflexivity |].
  rewrite IH. apply perm_swap.
Qed.

Lemma sort_desc_perm : forall l, Permutation (Render.sort_desc dt y l) l.
Proof.
  induction l as [| r l IH]; simpl; [reflexivity |].
  rewrite insert_desc_perm, IH. reflexivity.
Qed.

Lemma insert_desc_sorted :
  forall r l, StronglySorted desc l -> StronglySorted desc (Render.insert_desc dt y r l).
Proof.
  intros r. induction l as [| h t IH]; intros Hs; simpl.
  - repeat constructor.
  - inversion Hs as [| ? ? Ht Hh]; subst.
    destruct (Render.ykey dt y h <=? Render.ykey dt y r) eqn:E.
    + apply Z.leb_le in E. constructor; [exact Hs |].
      constructor; [exact E |].
      rewrite Forall_forall in *. intros z Hz. specialize (Hh z Hz). unfold Render.desc in *. lia.
    + apply Z.leb_gt in E. constructor; [apply IH, Ht |].
      rewrite Forall_forall in *. intros z Hz.
      apply (Permutation_in _ (insert_desc_perm r t)) in Hz as [<- | Hz].
      * unfold Render.desc. lia.
      * apply Hh, Hz.
Qed.

Lemma sort_desc_sorted : forall l, StronglySorted desc (Render.sort_desc dt y l).
Proof.
  induction l as [| r l IH]; simpl; [constructor | apply insert_desc_sorted, IH].
Qed.

Lemma sorted_app_l :
  forall l1 l2, StronglySorted desc (l1 ++ l2) -> StronglySorted desc l1.
Proof.
  induction l1 as [| a l1 IH]; simpl; intros l2 H; [constructor |].
  inversion H as [| ? ? H1 H2]; subst. constructor; [eapply IH, H1 |].
  rewrite Forall_forall in *. intros z Hz. apply H2, in_or_app. left; exact Hz.
Qed.

Lemma sorted_app_between :
  forall l1 l2 a b, StronglySorted desc (l1 ++ l2) -> In a l1 -> In b l2 -> desc a b.
Proof.
  induction l1 as [| c l1 IH]; simpl; intros l2 a b H Ha Hb; [contradiction |].
  inversion H as [| ? ? H1 H2]; subst. destruct Ha as [<- | Ha].
  - rewrite Forall_forall in H2. apply H2, in_or_app. right; exact Hb.
  - eapply IH; eauto.
Qed.

End TopN.

Lemma filter_split_perm :
  forall (A : Type) (f : A -> bool) (l : list A),
    Permutation (filter (fun a => negb (f a)) l ++ filter f l) l.
Proof.
  intros A f. induction l as [| a l IH]; simpl; [constructor |].
  destruct (f a); simpl.
  - apply Permutation_sym, Permutation_cons_app, Permutation_sym, IH.
  - constructor. exact IH.
Qed.

Lemma in_firstn :
  forall (A : Type) n (l : list A) a, In a (firstn n l) -> In a l.
Proof.
  intros A n l a H. rewrite <- (firstn_skipn n l). apply in_or_app. left. exact H.
Qed.

(** [nlargest] on a column of numeric dtype. *)
Lemma nlargest_numeric :
  forall n y df,
    Render.mem_column y df = true ->
    Render.numeric_column y (Render.rows df) = true ->
    Render.nlargest n y df =
      if n <=? 0 then Returned {| Render.columns := Render.columns df; Render.rows := [] |}
      else Returned {| Render.columns := Render.columns df;
                       Render.rows :=
                         firstn (Z.to_nat n)
                           (Render.sort_desc (Render.column_dtype y (Render.rows df)) y
                              (filter (fun r => negb (Render.is_nan y r)) (Render.rows df))
                            ++ filter (Render.is_nan y) (Render.rows df))%list |}.
Proof.
  intros n y df Hy Hnum. unfold Render.nlargest. rewrite Hy. simpl negb. cbv iota.
  unfold Render.numeric_column in Hnum.
  destruct (Render.column_dtype y (Render.rows df)); [reflexivity | reflexivity | discriminate].
Qed.

Lemma numeric_column_dtype :
  forall y rs, Render.numeric_column y rs = true <-> Render.column_dtype y rs <> Render.DObject.
Proof.
  intros y rs. unfold Render.numeric_column.
  destruct (Render.column_dtype y rs); split; congruence.
Qed.

(** The strategy is drawn once, on the frame [select_rows] returns, when
    the figure is created. *)
Lemma drawn_frames_plot :
  forall env df x y kind title top_n figsize rotate,
    Render.drawn_frames (fst (Render.plot_from_dataframe env df x y kind title top_n figsize rotate))
    = match Render.select_rows df x y top_n with
      | Returned d => match Render.subplots env figsize with None => [d] | Some _ => [] end
      | Raised _ => []
      end.
Proof.
  intros. unfold Render.plot_from_dataframe.
  destruct (Render.select_rows df x y top_n) as [d | e]; [| reflexivity].
  destruct (Render.subplots env figsize); [reflexivity |].
  destruct (Render.draw env _ d x y); [reflexivity |].
  destruct (Render.savefig env _);
  destruct title as [t |]; try destruct (String.eqb t ""); destruct rotate; reflexivity.
Qed.




(** ** Strategy dispatch *)

Lemma b64encode_nonempty : forall b, b <> [] -> B64.b64encode b <> "".
Proof.
  intros [| b0 [| b1 [| b2 rest]]] H; [contradiction H; reflexivity | | |];
    unfold B64.b64encode; cbn [B64.b2a_chars string_of_list_ascii]; discriminate.
Qed.



(** ** Generated object paths *)

Lemma length_string_of_list_ascii :
  forall l, String.length (string_of_list_ascii l) = length l.
Proof. induction l as [| c l IH]; simpl; [reflexivity | rewrite IH; reflexivity]. Qed.

Lemma hex_digits_length :
  forall fuel n acc k,
    0 <= n < 16 ^ Z.of_nat (S k) ->
    (length (Uuid.hex_digits fuel n acc) <= S k + length acc)%nat.
Proof.
  induction fuel as [| f IH]; intros n acc k Hn; simpl; [lia |].
  destruct (n <? 16) eqn:E; simpl; [lia |].
  apply Z.ltb_ge in E.
  destruct k as [| k].
  - simpl in Hn. lia.
  - specialize (IH (n / 16) (Uuid.hexchar (n mod 16) :: acc) k).
    simpl length in IH. enough (0 <= n / 16 < 16 ^ Z.of_nat (S k)) by (specialize (IH H); lia).
    split; [apply Z.div_pos; lia |].
    apply Z.div_lt_upper_bound; [lia |].
    rewrite Nat2Z.inj_succ, Z.pow_succ_r in Hn by lia. lia.
Qed.

Lemma hexchar_lower : forall d, 0 <= d < 16 -> Uuid.is_lower_hex (Uuid.hexchar d) = true.
Proof.
  intros d Hd. exact (range_check (fun d => Uuid.is_lower_hex (Uuid.hexchar d)) 16 eq_refl d Hd).
Qed.

Lemma hex_digits_lower :
  forall fuel n acc, 0 <= n -> forallb Uuid.is_lower_hex acc = true ->
    forallb Uuid.is_lower_hex (Uuid.hex_digits fuel n acc) = true.
Proof.
  induction fuel as [| f IH]; intros n acc Hn Hacc; cbn [Uuid.hex_digits]; [exact Hacc |].
  assert (Hd : Uuid.is_lower_hex (Uuid.hexchar (n mod 16)) = true)
    by (apply hexchar_lower; apply Z.mod_pos_bound; lia).
  destruct (n <? 16); [cbn [forallb]; rewrite Hd, Hacc; reflexivity |].
  apply IH; [apply Z.div_pos; lia | cbn [forallb]; rewrite Hd, Hacc; reflexivity].
Qed.

Lemma format_032x_shape :
  forall n, 0 <= n < 2 ^ 128 ->
    String.length (Uuid.format_032x n) = 32%nat /\
    Str.all_chars Uuid.is_lower_hex (Uuid.format_032x n) = true.
Proof.
  intros n Hn. unfold Uuid.format_032x.
  set (ds := Uuid.hex_digits _ n []).
  assert (Hlen : (length ds <= 32)%nat).
  { pose proof (hex_digits_length (S (Z.to_nat (Z.log2 n))) n [] 31) as H.
    simpl length in H. apply H. change (16 ^ Z.of_nat 32) with (2 ^ 128). lia. }
  split.
  - rewrite length_string_of_list_ascii, length_app, repeat_length. lia.
  - rewrite all_chars_forallb, list_ascii_of_string_of_list_ascii, forallb_app.
    unfold ds. rewrite (hex_digits_lower _ n [] (proj1 Hn) eq_refl), andb_true_r.
    apply forallb_forall. intros c Hc. apply repeat_spec in Hc. subst. reflexivity.
Qed.

Ltac bit_specs :=
  repeat first [ rewrite Z.lor_spec | rewrite Z.land_spec
               | rewrite Z.lnot_spec by lia | rewrite Z.shiftl_spec by lia ].

Ltac uuid_bits r :=
  unfold Uuid.uuid4_int; bit_specs;
  destruct (Z.testbit r _); reflexivity.

Lemma uuid4_int_bound : forall r, 0 <= r < 2 ^ 128 -> 0 <= Uuid.uuid4_int r < 2 ^ 128.
Proof.
  intros r Hr.
  assert (Hnn : 0 <= Uuid.uuid4_int r).
  { unfold Uuid.uuid4_int.
    apply Z.lor_nonneg; split; [| apply Z.shiftl_nonneg; lia].
    apply Z.land_nonneg; left. apply Z.lor_nonneg; split; [| apply Z.shiftl_nonneg; lia].
    apply Z.land_nonneg; left; lia. }
  split; [exact Hnn |].
  enough (Z.land (Uuid.uuid4_int r) (Z.ones 128) = Uuid.uuid4_int r) as H.
  { rewrite Z.land_ones in H by lia. rewrite <- H. apply Z.mod_pos_bound. lia. }
  apply Z.bits_inj'. intros i Hi.
  rewrite Z.land_spec, Z.testbit_ones_nonneg by lia.
  destruct (Z.ltb_spec i 128); [apply andb_true_r |].
  rewrite andb_false_r. symmetry.
  assert (Hri : Z.testbit r i = false).
  { destruct (Z.eq_dec r 0) as [-> | Hr0]; [apply Z.testbit_0_l |].
    apply Z.bits_above_log2; [lia |].
    assert (Z.log2 r < 128) by (apply (Z.log2_lt_pow2 r 128); lia). lia. }
  unfold Uuid.uuid4_int. bit_specs.
  rewrite Hri.
  rewrite (Z.bits_above_log2 32768 (i - 48)) by (simpl; lia).
  rewrite (Z.bits_above_log2 4 (i - 76)) by (simpl; lia).
  reflexivity.
Qed.

(** The version nibble of the generated UUID is 4. *)
Lemma uuid4_version : forall r, Z.land (Z.shiftr (Uuid.uuid4_int r) 76) 15 = 4.
Proof.
  intros r. apply Z.bits_inj'. intros i Hi.
  rewrite Z.land_spec, Z.shiftr_spec by lia.
  destruct (Z.ltb_spec i 4).
  - assert (i = 0 \/ i = 1 \/ i = 2 \/ i = 3) as [-> | [-> | [-> | ->]]] by lia;
      simpl Z.add; uuid_bits r.
  - rewrite (Z.bits_above_log2 15 i), (Z.bits_above_log2 4 i) by (simpl; lia).
    apply andb_false_r.
Qed.

(** The RFC 4122 variant bits of the generated UUID are 10. *)
Lemma uuid4_variant : forall r, Z.land (Z.shiftr (Uuid.uuid4_int r) 62) 3 = 2.
Proof.
  intros r. apply Z.bits_inj'. intros i Hi.
  rewrite Z.land_spec, Z.shiftr_spec by lia.
  destruct (Z.ltb_spec i 2).
  - assert (i = 0 \/ i = 1) as [-> | ->] by lia; simpl Z.add; uuid_bits r.
  - rewrite (Z.bits_above_log2 3 i), (Z.bits_above_log2 2 i) by (simpl; lia).
    apply andb_false_r.
Qed.

Lemma hexval_hexchar : forall d, 0 <= d < 16 -> Uuid.hexval (Uuid.hexchar d) = d.
Proof.
  intros d Hd. apply Z.eqb_eq.
  exact (range_check (fun d => Uuid.hexval (Uuid.hexchar d) =? d) 16 eq_refl d Hd).
Qed.

Lemma hex_digits_parse :
  forall f n acc, 0 <= n < 16 ^ Z.of_nat f ->
    fold_left (fun v c => 16 * v + Uuid.hexval c) (Uuid.hex_digits f n acc) 0
    = fold_left (fun v c => 16 * v + Uuid.hexval c) acc n.
Proof.
  induction f as [| f IH]; intros n acc Hn; cbn [Uuid.hex_digits].
  - simpl in Hn. replace n with 0 by lia. reflexivity.
  - assert (Hm : 0 <= n mod 16 < 16) by (apply Z.mod_pos_bound; lia).
    destruct (n <? 16) eqn:E.
    + apply Z.ltb_lt in E. cbn [fold_left]. rewrite hexval_hexchar by exact Hm.
      rewrite Z.mod_small by lia. f_equal; lia.
    + apply Z.ltb_ge in E. rewrite IH.
      * cbn [fold_left]. rewrite hexval_hexchar by exact Hm.
        f_equal; pose proof (Z.div_mod n 16); lia.
      * split; [apply Z.div_pos; lia |].
        apply Z.div_lt_upper_bound; [lia |].
        rewrite Nat2Z.inj_succ, Z.pow_succ_r in Hn by lia. lia.
Qed.

Lemma fold_hex_zeros :
  forall k l,
    fold_left (fun v c => 16 * v + Uuid.hexval c) (repeat "0"%char k ++ l) 0
    = fold_left (fun v c => 16 * v + Uuid.hexval c) l 0.
Proof. induction k as [| k IH]; intros l; [reflexivity | exact (IH l)]. Qed.

(** [int(format_032x(n), 16) == n]. *)
Lemma parse_format_032x :
  forall n, 0 <= n -> Uuid.parse_hex (list_ascii_of_string (Uuid.format_032x n)) = n.
Proof.
  intros n Hn. unfold Uuid.parse_hex, Uuid.format_032x.
  rewrite list_ascii_of_string_of_list_ascii, fold_hex_zeros, hex_digits_parse; [reflexivity |].
  split; [exact Hn |].
  rewrite Nat2Z.inj_succ, Z2Nat.id by (apply Z.log2_nonneg).
  destruct (Z.eq_dec n 0) as [-> | Hn0]; [simpl; lia |].
  apply Z.lt_le_trans with (2 ^ Z.succ (Z.log2 n)); [apply Z.log2_spec; lia |].
  rewrite <- (Z.pow_mul_r 2 4) by (pose proof (Z.log2_nonneg n); lia).
  apply Z.pow_le_mono_r; [lia |]. pose proof (Z.log2_nonneg n). lia.
Qed.

Lemma existsb_zeqb_in : forall (i : Z) l, existsb (Z.eqb i) l = true <-> In i l.
Proof.
  intros i l. rewrite existsb_exists. split.
  - intros (j & Hj & E). apply Z.eqb_eq in E. subst. exact Hj.
  - intros H. exists i. split; [exact H | apply Z.eqb_refl].
Qed.

(** Each bit of the UUID integer: the six fixed bits are those of
    variant 10 and version 4, every other bit is the random bit. *)
Lemma uuid4_testbit :
  forall r i, 0 <= i ->
    Z.testbit (Uuid.uuid4_int r) i
    = if existsb (Z.eqb i) Uuid.fixed_bits then (i =? 63) || (i =? 78) else Z.testbit r i.
Proof.
  intros r i Hi. unfold Uuid.uuid4_int. bit_specs.
  generalize (Z.testbit r i) as b. intros b.
  destruct (Z.ltb_spec i 80) as [Hlt | Hge].
  - replace i with (Z.of_nat (Z.to_nat i)) by lia.
    assert (Hk : (Z.to_nat i < 80)%nat) by lia.
    generalize (Z.to_nat i) Hk. clear i Hi Hlt Hk. intros k Hk.
    do 80 (destruct k as [| k]; [destruct b; reflexivity |]). lia.
  - rewrite (Z.bits_above_log2 49152 (i - 48)), (Z.bits_above_log2 32768 (i - 48)),
      (Z.bits_above_log2 61440 (i - 64)), (Z.bits_above_log2 4 (i - 76)) by (simpl; lia).
    assert (Hf : existsb (Z.eqb i) Uuid.fixed_bits = false).
    { destruct (existsb (Z.eqb i) Uuid.fixed_bits) eqn:E; [| reflexivity].
      apply existsb_zeqb_in in E. simpl in E. lia. }
    rewrite Hf. destruct b; reflexivity.
Qed.

(** Two draws give the same UUID exactly when they agree outside the six
    fixed bits. *)
Lemma uuid4_int_eq_iff :
  forall r1 r2,
    Uuid.uuid4_int r1 = Uuid.uuid4_int r2 <->
    (forall i, 0 <= i -> ~ In i Uuid.fixed_bits -> Z.testbit r1 i = Z.testbit r2 i).
Proof.
  intros r1 r2. split.
  - intros H i Hi Hn.
    assert (Hf : existsb (Z.eqb i) Uuid.fixed_bits = false).
    { destruct (existsb (Z.eqb i) Uuid.fixed_bits) eqn:E; [| reflexivity].
      apply existsb_zeqb_in in E. contradiction. }
    pose proof (uuid4_testbit r1 i Hi) as H1. pose proof (uuid4_testbit r2 i Hi) as H2.
    rewrite Hf in H1, H2. rewrite <- H1, <- H2, H. reflexivity.
  - intros H. apply Z.bits_inj'. intros i Hi.
    rewrite !uuid4_testbit by exact Hi.
    destruct (existsb (Z.eqb i) Uuid.fixed_bits) eqn:E; [reflexivity |].
    apply H; [exact Hi |]. intros Hin. apply existsb_zeqb_in in Hin. congruence.
Qed.

(** The generated path determines the UUID. *)
Lemma generated_blob_name_eq_iff :
  forall r1 r2, 0 <= r1 < 2 ^ 128 -> 0 <= r2 < 2 ^ 128 ->
    Upload.generated_blob_name r1 = Upload.generated_blob_name r2 <->
    Uuid.uuid4_int r1 = Uuid.uuid4_int r2.
Proof.
  intros r1 r2 H1 H2. split.
  - intros H. unfold Upload.generated_blob_name in H.
    apply (f_equal list_ascii_of_string) in H.
    rewrite !list_ascii_of_string_app in H.
    apply app_inv_head, app_inv_tail in H.
    apply (f_equal Uuid.parse_hex) in H. unfold Uuid.uuid4_hex in H.
    rewrite !parse_format_032x in H by (apply uuid4_int_bound; assumption).
    exact H.
  - intros H. unfold Upload.generated_blob_name, Uuid.uuid4_hex. rewrite H. reflexivity.
Qed.

(** C8 (as amended): when [upload_to_gcs] is given no path, the path of
    the returned result and of every storage call is the generated one
    for the run's 128 random bits [r]; it is ["census_charts/" ++ h ++ ".png"]
    with [h] 32 lowercase hexadecimal digits: the version-4 UUID built
    from [r], whose version nibble is 4 and variant bits 10.  Two draws
    give the same path exactly when they agree outside the six bits the
    variant and the version overwrite. *)
Theorem generated_blob_name_form :
  forall r, 0 <= r < 2 ^ 128 ->
    (exists h,
      Upload.generated_blob_name r = "census_charts/" ++ h ++ ".png" /\
      String.length h = 32%nat /\
      Str.all_chars Uuid.is_lower_hex h = true /\
      h = Uuid.format_032x (Uuid.uuid4_int r) /\
      Z.land (Z.shiftr (Uuid.uuid4_int r) 76) 15 = 4 /\
      Z.land (Z.shiftr (Uuid.uuid4_int r) 62) 3 = 2) /\
    (forall r', 0 <= r' < 2 ^ 128 ->
       Upload.generated_blob_name r = Upload.generated_blob_name r' <->
       (forall i, 0 <= i -> ~ In i [62; 63; 76; 77; 78; 79] -> Z.testbit r i = Z.testbit r' i)) /\
    (forall env png_base64 bucket minutes evs res,
       Upload.urandom128 env = r ->
       Upload.upload_to_gcs env png_base64 bucket None minutes = (evs, res) ->
       (forall u, res = Returned u -> Upload.blob_name u = Upload.generated_blob_name r) /\
       (forall b name bytes ct, In (Upload.EvWrite b name bytes ct) evs ->
          name = Upload.generated_blob_name r) /\
       (forall b name m meth, In (Upload.EvSign b name m meth) evs ->
          name = Upload.generated_blob_name r)).
Proof.
  intros r Hr. split; [| split].
  - destruct (format_032x_shape (Uuid.uuid4_int r) (uuid4_int_bound r Hr)) as [Hl Hc].
    exists (Uuid.format_032x (Uuid.uuid4_int r)).
    split; [reflexivity |]. split; [exact Hl |]. split; [exact Hc |].
    split; [reflexivity |]. split; [apply uuid4_version | apply uuid4_variant].
  - intros r' Hr'. rewrite (generated_blob_name_eq_iff r r' Hr Hr').
    exact (uuid4_int_eq_iff r r').
  - intros env png bucket minutes evs res Henv H.
    unfold Upload.upload_to_gcs, Upload.resolve_blob_name in H. rewrite Henv in H.
    destruct (Upload.decode_payload png) as [bytes | e].
    + destruct (Upload.write_object _ _ _ _ _).
      * inversion H; subst. split; [discriminate |].
        split; [intros ? ? ? ? [Hw | []]; inversion Hw; reflexivity |].
        intros ? ? ? ? [Hw | []]; discriminate.
      * inversion H; subst. split; [intros u Hu; inversion Hu; reflexivity |].
        split.
        -- intros ? ? ? ? [Hw | [Hw | []]]; inversion Hw; reflexivity.
        -- intros ? ? ? ? [Hw | [Hw | []]]; inversion Hw; reflexivity.
    + inversion H; subst. split; [discriminate |]. split; intros ? ? ? ? [].
Qed.

Lemma generated_blob_name_form_witness :
  (exists h,
    Upload.generated_blob_name 7 = "census_charts/" ++ h ++ ".png" /\
    String.length h = 32%nat) /\
  Upload.generated_blob_name 7 = Upload.generated_blob_name (7 + 2 ^ 77) /\
  (forall u, snd (Upload.upload_to_gcs env_sign_fails "iVBORw0KGgo=" "b" None 60) = Returned u ->
     Upload.blob_name u = Upload.generated_blob_name 7).
Proof.
  destruct (generated_blob_name_form 7 ltac:(lia)) as ((h & H1 & H2 & _) & Heq & Hup).
  split; [exists h; split; [exact H1 | exact H2] |].
  split.
  - apply (proj2 (Heq (7 + 2 ^ 77) ltac:(lia))). intros i Hi Hn.
    replace (7 + 2 ^ 77) with (Z.lor 7 (2 ^ 77)) by reflexivity.
    rewrite Z.lor_spec, Z.pow2_bits_eqb by lia.
    destruct (Z.eqb_spec 77 i); [subst; contradiction Hn; simpl; auto | symmetry; apply orb_false_r].
  - intros u Hu.
    destruct (Upload.upload_to_gcs env_sign_fails "iVBORw0KGgo=" "b" None 60) as [evs res] eqn:E.
    exact (proj1 (Hup env_sign_fails "iVBORw0KGgo=" "b" 60 evs res eq_refl E) u Hu).
Defined.

(** The claim as stated: two calls whose random draws differ only in the
    bits the version overwrites generate the same path. *)
Lemma generated_blob_name_collision :
  0 <> 2 ^ 76 /\ Upload.generated_blob_name 0 = Upload.generated_blob_name (2 ^ 76).
Proof. split; [lia | vm_compute; reflexivity]. Qed.

(** * Further properties of the code *)

(** ** Base64 payloads *)

Lemma b64encode_text :
  forall b, Forall B64.is_byte b ->
    Str.all_chars B64.is_b64_char (B64.b64encode b) = true /\
    forallb (fun c => (nat_of_ascii c <? 128)%nat) (list_ascii_of_string (B64.b64encode b)) = true.
Proof.
  intros b Hb.
  assert (Ht := b2a_chars_text (length b) b (le_n _) Hb).
  unfold B64.b64encode. rewrite all_chars_forallb, list_ascii_of_string_of_list_ascii.
  rewrite forallb_forall in Ht. split; rewrite forallb_forall; intros c Hin;
    specialize (Ht c Hin); apply andb_prop in Ht as [H1 H2]; assumption.
Qed.

Lemma decode_payload_encoding :
  forall b, Forall B64.is_byte b ->
    Upload.decode_payload (B64.b64encode b) = Returned b /\
    Upload.decode_payload ("data:image/png;base64," ++ B64.b64encode b) = Returned b.
Proof.
  intros b Hb.
  destruct (b64encode_text b Hb) as [H64 Hascii].
  assert (Hdec : B64.b64decode (B64.b64encode b ++ "==") = Returned b).
  { unfold B64.b64decode. rewrite list_ascii_of_string_app, forallb_app, Hascii.
    simpl andb. cbv iota.
    change (list_ascii_of_string "==") with [B64.PAD; B64.PAD].
    unfold B64.b64encode at 1. rewrite list_ascii_of_string_of_list_ascii.
    exact (decode_encoding_repadded (length b) b [] (B64.b2a_chars b) []
             (le_n _) Hb (eq_sym (app_nil_r _)) eq_refl). }
  unfold Upload.decode_payload, Upload.strip_data_uri. split.
  - rewrite (contains_comma_b64 _ H64). exact Hdec.
  - cbn [Str.contains Str.after_first Ascii.eqb append Bool.eqb orb]. cbv iota.
    rewrite strip_nospace by (apply b64_text_nospace; exact H64). exact Hdec.
Qed.

(** Decoding past the end of an encoding whose last group is padded:
    the loop stops at the padding, whatever follows it. *)
Lemma decode_encoding_trailing :
  forall n b acc T,
    (length b <= n)%nat -> Forall B64.is_byte b -> (length b mod 3 <> 0)%nat ->
    B64.a2b_loop (B64.b2a_chars b ++ T) 0 0 0 acc = Returned (rev acc ++ b)%list.
Proof.
  induction n as [| n IH]; intros b acc T Hn Hb H3.
  - destruct b; [simpl in H3; lia | simpl in Hn; lia].
  - destruct b as [| b0 [| b1 [| b2 rest]]].
    + simpl in H3. lia.
    + inversion Hb as [| ? ? Hb0 _]; subst. unfold B64.is_byte in Hb0.
      destruct (byte_hi_bound b0 Hb0) as (A1 & _ & _ & A4 & _).
      destruct (a2b_b2a (Z.shiftr b0 2)) as (E1 & P1 & _); [lia |].
      assert (Hv2 : 0 <= Z.lor (Z.shiftl (Z.land b0 3) 4) 0 < 64) by (apply sextet2_bound; lia).
      rewrite Z.lor_0_r in Hv2.
      destruct (a2b_b2a (Z.shiftl (Z.land b0 3) 4)) as (E2 & P2 & _); [exact Hv2 |].
      cbn [B64.b2a_chars]. rewrite <- !app_comm_cons. cbn [B64.a2b_loop].
      rewrite P1, E1, P2, E2.
      rewrite <- (Z.lor_0_r (Z.shiftl (Z.land b0 3) 4)).
      rewrite (decode_byte1 b0 0) by lia. reflexivity.
    + inversion Hb as [| ? ? Hb0 Hb']; subst. inversion Hb' as [| ? ? Hb1 _]; subst.
      unfold B64.is_byte in Hb0, Hb1.
      destruct (byte_hi_bound b0 Hb0) as (A1 & A2 & A3 & A4 & A5 & A6).
      destruct (byte_hi_bound b1 Hb1) as (B1 & B2 & B3 & B4 & B5 & B6).
      destruct (a2b_b2a (Z.shiftr b0 2)) as (E1 & P1 & _); [lia |].
      destruct (a2b_b2a (Z.lor (Z.shiftl (Z.land b0 3) 4) (Z.shiftr b1 4))) as (E2 & P2 & _);
        [apply sextet2_bound; lia |].
      assert (Hv3 : 0 <= Z.lor (Z.shiftl (Z.land b1 15) 2) 0 < 64) by (apply sextet3_bound; lia).
      rewrite Z.lor_0_r in Hv3.
      destruct (a2b_b2a (Z.shiftl (Z.land b1 15) 2)) as (E3 & P3 & _); [exact Hv3 |].
      cbn [B64.b2a_chars]. rewrite <- !app_comm_cons. cbn [B64.a2b_loop].
      rewrite P1, E1, P2, E2, P3, E3.
      rewrite (decode_byte1 b0 (Z.shiftr b1 4)) by lia.
      rewrite <- (Z.lor_0_r (Z.shiftl (Z.land b1 15) 2)).
      rewrite (decode_byte2 (Z.land b0 3) b1 0) by lia.
      simpl. rewrite <- app_assoc. reflexivity.
    + inversion Hb as [| ? ? Hb0 Hb']; subst. inversion Hb' as [| ? ? Hb1 Hb'']; subst.
      inversion Hb'' as [| ? ? Hb2 Hrest]; subst.
      unfold B64.is_byte in Hb0, Hb1, Hb2.
      cbn [B64.b2a_chars]. rewrite <- !app_comm_cons. rewrite loop_group by assumption.
      rewrite (IH rest (b2 :: b1 :: b0 :: acc) T); [| simpl in Hn; lia | exact Hrest |].
      * simpl. rewrite <- !app_assoc. reflexivity.
      * simpl length in H3. replace (S (S (S (length rest)))) with (length rest + 1 * 3)%nat in H3
          by lia. rewrite Nat.Div0.mod_add in H3. exact H3.
Qed.

Lemma contains_app :
  forall c s t, Str.contains c (s ++ t) = Str.contains c s || Str.contains c t.
Proof.
  induction s as [| d s IH]; simpl; intros t; [reflexivity |].
  rewrite IH, orb_assoc. reflexivity.
Qed.

(** A character the decoder neither maps nor takes for padding is
    skipped, wherever it stands. *)
Lemma a2b_loop_skip :
  forall c, B64.a2b c = None -> Ascii.eqb c B64.PAD = false ->
  forall l1 l2 q lc p acc,
    B64.a2b_loop (l1 ++ c :: l2) q lc p acc = B64.a2b_loop (l1 ++ l2) q lc p acc.
Proof.
  intros c Ha Hp. induction l1 as [| d l1 IH]; intros l2 q lc p acc.
  - simpl app. cbn [B64.a2b_loop]. rewrite Hp, Ha. reflexivity.
  - rewrite <- !app_comm_cons. cbn [B64.a2b_loop].
    destruct (Ascii.eqb d B64.PAD).
    + destruct (2 <=? q)%nat; [destruct (4 <=? q + S p)%nat |]; try reflexivity; apply IH.
    + destruct (B64.a2b d); [| apply IH].
      destruct q as [| [| [| q]]]; apply IH.
Qed.

(** A chart made by [create_chart] and handed to [upload_chart_to_gcs],
    as its [png_base64] or its [data_uri], is uploaded as exactly the PNG
    bytes [savefig] wrote: the first storage call writes those bytes. *)
Theorem chart_upload_roundtrip :
  forall penv senv rows x y kind title evs r png blob uevs ures,
    Agent.create_chart penv rows x y kind title = (evs, Returned r) ->
    Render.savefig penv evs = Returned png ->
    Forall B64.is_byte png ->
    (Agent.upload_chart_to_gcs senv (Render.png_base64 r) blob = (uevs, ures) \/
     Agent.upload_chart_to_gcs senv (Render.data_uri r) blob = (uevs, ures)) ->
    exists name,
      hd_error uevs = Some (Upload.EvWrite Agent.GCS_CHART_BUCKET name png "image/png").
Proof.
  intros penv senv rows x y kind title evs r png blob uevs ures Hc Hs Hb Hu.
  unfold Agent.create_chart in Hc. run_render; try discriminate.
  injection Hc as Hevs Hr. subst r evs.
  cbn [app] in *.
  match goal with
  | H : Render.savefig _ _ = Returned _ |- _ =>
      tryif (constr_eq H Hs) then fail else (rewrite H in Hs; injection Hs as ->)
  end.
  destruct (decode_payload_encoding _ Hb) as [D1 D2].
  unfold Agent.upload_chart_to_gcs, Upload.upload_to_gcs in Hu.
  cbn [Render.png_base64 Render.data_uri] in Hu.
  cbn [append] in D2. destruct Hu as [Hu | Hu]; [rewrite D1 in Hu | rewrite D2 in Hu];
    destruct (Upload.write_object _ _ _ _ _); inversion Hu; subst; eexists; reflexivity.
Qed.

Lemma chart_upload_roundtrip_witness :
  exists name,
    hd_error (fst (Agent.upload_chart_to_gcs env_sign_fails
                     "data:image/png;base64,iVBORw0KGgo=" "c.png"))
    = Some (Upload.EvWrite Agent.GCS_CHART_BUCKET name
              [137; 80; 78; 71; 13; 10; 26; 10] "image/png").
Proof.
  refine (chart_upload_roundtrip env_plot_ok env_sign_fails example_rows "area" "pct" "bar" ""
            (fst (Agent.create_chart env_plot_ok example_rows "area" "pct" "bar" ""))
            {| Render.png_base64 := "iVBORw0KGgo=";
               Render.data_uri := "data:image/png;base64,iVBORw0KGgo=";
               Render.width := 8; Render.height := 4; Render.format := "png" |}
            [137; 80; 78; 71; 13; 10; 26; 10]
            "c.png"
            (fst (Agent.upload_chart_to_gcs env_sign_fails
                    "data:image/png;base64,iVBORw0KGgo=" "c.png"))
            (snd (Agent.upload_chart_to_gcs env_sign_fails
                    "data:image/png;base64,iVBORw0KGgo=" "c.png")) _ _ _ _).
  - vm_compute. reflexivity.
  - vm_compute. reflexivity.
  - repeat constructor; unfold B64.is_byte; lia.
  - right. apply surjective_pairing.
Defined.

(** Text after the padding of a Base64 payload is ignored: a payload
    whose last group is padded decodes to the same bytes whatever
    (comma-free ASCII) text follows it. *)
Theorem upload_ignores_text_after_padding :
  forall b t,
    Forall B64.is_byte b -> (length b mod 3 <> 0)%nat ->
    Str.contains "," t = false ->
    forallb (fun c => (nat_of_ascii c <? 128)%nat) (list_ascii_of_string t) = true ->
    Upload.decode_payload (B64.b64encode b ++ t) = Returned b.
Proof.
  intros b t Hb H3 Ht Hta.
  destruct (b64encode_text b Hb) as [H64 Hascii].
  unfold Upload.decode_payload, Upload.strip_data_uri.
  rewrite contains_app, (contains_comma_b64 _ H64), Ht. simpl orb. cbv iota.
  unfold B64.b64decode. rewrite !list_ascii_of_string_app, !forallb_app, Hascii, Hta.
  simpl andb. cbv iota.
  unfold B64.b64encode at 1. rewrite list_ascii_of_string_of_list_ascii, <- app_assoc.
  exact (decode_encoding_trailing (length b) b [] _ (le_n _) Hb H3).
Qed.

Lemma upload_ignores_text_after_padding_witness :
  Upload.decode_payload "SGk=garbage" = Returned [72; 105].
Proof.
  apply (upload_ignores_text_after_padding [72; 105] "garbage").
  - repeat constructor; unfold B64.is_byte; lia.
  - simpl. lia.
  - reflexivity.
  - reflexivity.
Defined.

(** A plain Base64 payload (no comma) may carry stray ASCII characters
    that are neither in the alphabet nor the pad, such as line breaks:
    each is skipped, and the payload decodes as if it were absent. *)
Theorem upload_skips_stray_characters :
  forall s1 s2 c,
    B64.a2b c = None -> Ascii.eqb c B64.PAD = false -> Ascii.eqb "," c = false ->
    (nat_of_ascii c < 128)%nat ->
    Str.contains "," (s1 ++ s2) = false ->
    Upload.decode_payload (s1 ++ String c s2) = Upload.decode_payload (s1 ++ s2).
Proof.
  intros s1 s2 c Ha Hp Hc Hc128 Hs.
  unfold Upload.decode_payload, Upload.strip_data_uri.
  assert (Hs' : Str.contains "," (s1 ++ String c s2) = false).
  { rewrite contains_app in *. cbn [Str.contains]. rewrite Hc. exact Hs. }
  rewrite Hs, Hs'. unfold B64.b64decode.
  rewrite !list_ascii_of_string_app.
  change (list_ascii_of_string (String c s2)) with (c :: list_ascii_of_string s2).
  rewrite <- !app_assoc, <- app_comm_cons.
  set (ok := fun c : ascii => (nat_of_ascii c <? 128)%nat).
  set (l1 := list_ascii_of_string s1).
  set (l2 := (list_ascii_of_string s2 ++ list_ascii_of_string "==")%list).
  assert (E : forallb ok (l1 ++ c :: l2) = forallb ok (l1 ++ l2)).
  { rewrite !forallb_app. cbn [forallb]. unfold ok at 2.
    apply Nat.ltb_lt in Hc128. rewrite Hc128. reflexivity. }
  rewrite E. destruct (forallb ok (l1 ++ l2)); [| reflexivity].
  apply a2b_loop_skip; assumption.
Qed.

Lemma upload_skips_stray_characters_witness :
  Upload.decode_payload ("SGkh" ++ String "010" "Cg") = Upload.decode_payload ("SGkh" ++ "Cg").
Proof.
  apply upload_skips_stray_characters; try reflexivity.
  apply Nat.ltb_lt. reflexivity.
Defined.

(** ** Storage calls of [upload_to_gcs] *)

(** A payload holding a non-ASCII character (after the data-URI prefix
    is cut) raises [ValueError] before any storage call. *)
Theorem upload_non_ascii_no_storage_call :
  forall env png_base64 bucket blob minutes c,
    In c (list_ascii_of_string (Upload.strip_data_uri png_base64)) ->
    (128 <= nat_of_ascii c)%nat ->
    Upload.upload_to_gcs env png_base64 bucket blob minutes
    = ([], Raised (ValueError "string argument should contain only ASCII characters")).
Proof.
  intros env png_base64 bucket blob minutes c Hin Hc.
  unfold Upload.upload_to_gcs, Upload.decode_payload, B64.b64decode.
  rewrite list_ascii_of_string_app, forallb_app.
  replace (forallb (fun c => (nat_of_ascii c <? 128)%nat)
             (list_ascii_of_string (Upload.strip_data_uri png_base64))) with false.
  - reflexivity.
  - symmetry. apply not_true_iff_false. intros H. rewrite forallb_forall in H.
    specialize (H c Hin). apply Nat.ltb_lt in H. lia.
Qed.

Lemma upload_non_ascii_no_storage_call_witness :
  Upload.upload_to_gcs env_sign_fails (String "233" "QQ") "b" None 60
  = ([], Raised (ValueError "string argument should contain only ASCII characters")).
Proof.
  apply (upload_non_ascii_no_storage_call _ _ _ _ _ "233").
  - left. reflexivity.
  - apply Nat.leb_le. reflexivity.
Defined.

(** The storage calls of a run: a returned run wrote the decoded bytes
    as ["image/png"] to the returned path of the bucket, then asked for
    a GET URL of that object for the given minutes; a raised run made no
    call at all (decoding failed) or only the write, which raised the
    exception. *)
Theorem upload_storage_calls :
  forall env png_base64 bucket blob minutes,
    let (evs, res) := Upload.upload_to_gcs env png_base64 bucket blob minutes in
    match res with
    | Returned r =>
        exists png_bytes,
          Upload.decode_payload png_base64 = Returned png_bytes /\
          evs = [Upload.EvWrite bucket (Upload.blob_name r) png_bytes "image/png";
                 Upload.EvSign bucket (Upload.blob_name r) minutes "GET"] /\
          Upload.expiration_minutes r = minutes
    | Raised e =>
        (evs = [] /\ Upload.decode_payload png_base64 = Raised e) \/
        exists png_bytes,
          Upload.decode_payload png_base64 = Returned png_bytes /\
          evs = [Upload.EvWrite bucket (Upload.resolve_blob_name env blob) png_bytes "image/png"] /\
          Upload.write_object env bucket (Upload.resolve_blob_name env blob) png_bytes "image/png"
            = Some e
    end.
Proof.
  intros env png_base64 bucket blob minutes.
  unfold Upload.upload_to_gcs.
  destruct (Upload.decode_payload png_base64) as [png_bytes | e] eqn:Hd.
  - destruct (Upload.write_object _ _ _ _ _) as [e |] eqn:Hw.
    + right. exists png_bytes. auto.
    + exists png_bytes. auto.
  - left. auto.
Qed.

(** With a caller-supplied object path, the random source is never
    read: two storage environments that differ only in it give the same
    run. *)
Theorem upload_given_path_ignores_random :
  forall env env' png_base64 bucket b minutes,
    Upload.write_object env = Upload.write_object env' ->
    Upload.generate_signed_url env = Upload.generate_signed_url env' ->
    Upload.upload_to_gcs env png_base64 bucket (Some b) minutes
    = Upload.upload_to_gcs env' png_base64 bucket (Some b) minutes.
Proof.
  intros env env' png_base64 bucket b minutes Hw Hs.
  unfold Upload.upload_to_gcs, Upload.resolve_blob_name. rewrite Hw, Hs. reflexivity.
Qed.

Lemma upload_given_path_ignores_random_witness :
  Upload.upload_to_gcs env_sign_fails "QQ" "b" (Some "c.png") 60
  = Upload.upload_to_gcs
      {| Upload.urandom128 := 12345;
         Upload.write_object := Upload.write_object env_sign_fails;
         Upload.generate_signed_url := Upload.generate_signed_url env_sign_fails |}
      "QQ" "b" (Some "c.png") 60.
Proof.
  apply upload_given_path_ignores_random; reflexivity.
Defined.

(** ** Row selection and figure calls of [plot_from_dataframe] *)

(** When [x] is not a column, [top_n] is ignored: the run is the one
    without it, the whole frame is drawn once the figure exists, and [y]
    is never looked at (no [KeyError] or [TypeError], whatever [y] is). *)
Theorem render_top_n_needs_x_column :
  forall env df x y kind title n figsize rotate,
    Render.mem_column x df = false ->
    Render.subplots env figsize = None ->
    Render.plot_from_dataframe env df x y kind title (Some n) figsize rotate
    = Render.plot_from_dataframe env df x y kind title None figsize rotate /\
    Render.drawn_frames (fst (Render.plot_from_dataframe env df x y kind title (Some n) figsize rotate))
    = [df].
Proof.
  intros env df x y kind title n figsize rotate Hx Hsub.
  split.
  - unfold Render.plot_from_dataframe, Render.select_rows. rewrite Hx. reflexivity.
  - rewrite drawn_frames_plot. unfold Render.select_rows. rewrite Hx, Hsub. reflexivity.
Qed.

Lemma render_top_n_needs_x_column_witness :
  Render.drawn_frames (fst (Render.plot_from_dataframe env_plot_ok (Render.df_from_rows example_rows)
                              "region" "nope" "bar" None (Some 1) (8, 4) true))
  = [Render.df_from_rows example_rows].
Proof.
  apply (render_top_n_needs_x_column env_plot_ok _ "region" "nope" "bar" None 1 (8, 4) true);
    reflexivity.
Defined.

(** When [x] is a column and [top_n] is given, a [y] that is not a
    column raises [KeyError y], and a [y] column of object dtype (holding
    a string, or ints no 64-bit integer type holds) raises [TypeError];
    either way before any figure call. *)
Theorem render_top_n_bad_y_column :
  forall env df x y kind title n figsize rotate,
    Render.mem_column x df = true ->
    Render.mem_column y df = false \/ Render.numeric_column y (Render.rows df) = false ->
    Render.plot_from_dataframe env df x y kind title (Some n) figsize rotate
    = ([], Raised (if Render.mem_column y df
                   then TypeError "Column is not of a numeric dtype"
                   else KeyError y)).
Proof.
  intros env df x y kind title n figsize rotate Hx Hy.
  unfold Render.plot_from_dataframe, Render.select_rows, Render.nlargest. rewrite Hx.
  destruct (Render.mem_column y df) eqn:Hm; [| reflexivity].
  destruct Hy as [Hy | Hy]; [discriminate |]. unfold Render.numeric_column in Hy.
  simpl negb. cbv iota.
  destruct (Render.column_dtype y (Render.rows df)); [discriminate | discriminate | reflexivity].
Qed.

Lemma render_top_n_bad_y_column_witness :
  Render.plot_from_dataframe env_plot_ok (Render.df_from_rows example_rows)
    "area" "area" "bar" None (Some 1) (8, 4) true
  = ([], Raised (TypeError "Column is not of a numeric dtype")).
Proof.
  apply (render_top_n_bad_y_column env_plot_ok (Render.df_from_rows example_rows)
           "area" "area" "bar" None 1 (8, 4) true).
  - reflexivity.
  - right. reflexivity.
Defined.

(** A [y] column holding a string, or an int that neither int64 nor
    uint64 holds (below [-2^63] or from [2^64] on), has object dtype:
    with [x] a column, [top_n] then raises [TypeError] before any figure
    call. *)
Theorem render_top_n_object_column :
  forall env rs x y kind title n figsize rotate r v,
    In r rs -> Render.lookup y r = Some v ->
    match v with
    | Render.VStr _ => True
    | Render.VInt z => Render.int_out_of_range z = true
    | Render.VFloat _ => False
    end ->
    Render.mem_column x (Render.df_from_rows rs) = true ->
    Render.mem_column y (Render.df_from_rows rs) = true ->
    Render.column_dtype y rs = Render.DObject /\
    Render.plot_from_rows env rs x y kind title (Some n) figsize rotate
    = ([], Raised (TypeError "Column is not of a numeric dtype")).
Proof.
  intros env rs x y kind title n figsize rotate r v Hr Hl Hv Hx Hy.
  assert (Hdt : Render.column_dtype y rs = Render.DObject).
  { unfold Render.column_dtype.
    match goal with |- (if ?c then _ else _) = _ => assert (Hc : c = true) end.
    { apply orb_true_intro. left. apply existsb_exists.
      exists (Some v). split; [rewrite <- Hl; apply in_map, Hr |].
      destruct v; [exact Hv | contradiction | reflexivity]. }
    rewrite Hc. reflexivity. }
  split; [exact Hdt |].
  unfold Render.plot_from_rows, Render.plot_from_dataframe, Render.select_rows, Render.nlargest.
  rewrite Hx, Hy. cbn [negb Render.rows Render.df_from_rows]. rewrite Hdt. reflexivity.
Qed.

Lemma render_top_n_object_column_witness :
  Render.column_dtype "pct" [[("area", Render.VStr "A"); ("pct", Render.VInt (2 ^ 70))]]
  = Render.DObject /\
  Render.plot_from_rows env_plot_ok [[("area", Render.VStr "A"); ("pct", Render.VInt (2 ^ 70))]]
    "area" "pct" "bar" None (Some 1) (8, 4) true
  = ([], Raised (TypeError "Column is not of a numeric dtype")).
Proof.
  apply (render_top_n_object_column env_plot_ok _ "area" "pct" "bar" None 1 (8, 4) true
           [("area", Render.VStr "A"); ("pct", Render.VInt (2 ^ 70))] (Render.VInt (2 ^ 70)));
    [left; reflexivity | reflexivity | reflexivity | reflexivity | reflexivity].
Defined.

(** With [x] a column and a numeric [y] column, [top_n = n] draws
    (once the figure exists) [min(n, len(df))] rows (none for [n <= 0]),
    all of them rows of the frame, under the same columns; a row with no
    [y] value is drawn only when fewer than [n] rows have one. *)
Theorem render_top_n_nan_rows_last :
  forall env df x y kind title n figsize rotate,
    Render.mem_column x df = true ->
    Render.mem_column y df = true ->
    Render.numeric_column y (Render.rows df) = true ->
    Render.subplots env figsize = None ->
    exists d,
      Render.drawn_frames (fst (Render.plot_from_dataframe env df x y kind title (Some n) figsize rotate))
        = [d] /\
      Render.columns d = Render.columns df /\
      length (Render.rows d) = Nat.min (Z.to_nat n) (length (Render.rows df)) /\
      incl (Render.rows d) (Render.rows df) /\
      ((Z.to_nat n <= length (filter (fun r => negb (Render.is_nan y r)) (Render.rows df)))%nat ->
       forallb (fun r => negb (Render.is_nan y r)) (Render.rows d) = true).
Proof.
  intros env df x y kind title n figsize rotate Hx Hy Hnum Hsub.
  rewrite drawn_frames_plot. unfold Render.select_rows.
  rewrite Hx, (nlargest_numeric n y df Hy Hnum), Hsub.
  set (dt := Render.column_dtype y (Render.rows df)).
  destruct (n <=? 0) eqn:Hn.
  - eexists. split; [reflexivity |]. simpl.
    apply Z.leb_le in Hn. replace (Z.to_nat n) with 0%nat by lia.
    split; [reflexivity |]. split; [reflexivity |]. split; [intros a [] | reflexivity].
  - eexists. split; [reflexivity |]. cbn [Render.rows Render.columns].
    set (keep := filter (fun r => negb (Render.is_nan y r)) (Render.rows df)).
    set (nans := filter (Render.is_nan y) (Render.rows df)).
    assert (Hp : Permutation (Render.sort_desc dt y keep ++ nans) (Render.rows df)).
    { eapply perm_trans; [apply Permutation_app_tail, sort_desc_perm |].
      apply filter_split_perm. }
    split; [reflexivity |].
    split; [rewrite length_firstn, (Permutation_length Hp); reflexivity |].
    split.
    + intros a Ha. apply (Permutation_in _ Hp). exact (in_firstn _ _ _ _ Ha).
    + intros Hle. rewrite firstn_app.
      assert (Hl : length (Render.sort_desc dt y keep) = length keep)
        by exact (Permutation_length (sort_desc_perm dt y keep)).
      replace (Z.to_nat n - length (Render.sort_desc dt y keep))%nat with 0%nat by lia.
      rewrite app_nil_r. apply forallb_forall. intros a Ha.
      apply in_firstn in Ha. apply (Permutation_in _ (sort_desc_perm dt y keep)) in Ha.
      unfold keep in Ha. apply filter_In in Ha. exact (proj2 Ha).
Qed.

Lemma render_top_n_nan_rows_last_witness :
  exists d,
    Render.drawn_frames (fst (Render.plot_from_dataframe env_plot_ok
      (Render.df_from_rows example_rows_nan) "area" "pct" "bar" None (Some 2) (8, 4) true))
      = [d] /\
    Render.columns d = Render.columns (Render.df_from_rows example_rows_nan) /\
    length (Render.rows d)
      = Nat.min (Z.to_nat 2) (length (Render.rows (Render.df_from_rows example_rows_nan))) /\
    incl (Render.rows d) (Render.rows (Render.df_from_rows example_rows_nan)) /\
    ((Z.to_nat 2 <= length (filter (fun r => negb (Render.is_nan "pct" r))
                               (Render.rows (Render.df_from_rows example_rows_nan))))%nat ->
     forallb (fun r => negb (Render.is_nan "pct" r)) (Render.rows d) = true).
Proof.
  apply render_top_n_nan_rows_last; reflexivity.
Defined.

(** A run that raises produces no image: either it stopped at or before
    drawing (its only calls are [plt.subplots] and the seaborn call, none
    when the row selection raised, so no title, tick, layout or [savefig]
    call is made), or the exception is the one [savefig] raised on the
    figure built by the run's calls. *)
Theorem render_failure_never_saves :
  forall env df x y kind title top_n figsize rotate,
    let (evs, res) := Render.plot_from_dataframe env df x y kind title top_n figsize rotate in
    match res with
    | Raised e =>
        Forall (fun ev => match ev with
                          | Render.EvSubplots _ | Render.EvDraw _ _ _ _ => True
                          | _ => False
                          end) evs \/
        Render.savefig env evs = Raised e
    | Returned _ => True
    end.
Proof.
  intros env df x y kind title top_n figsize rotate.
  unfold Render.plot_from_dataframe.
  destruct (Render.select_rows df x y top_n) as [d | e]; [| left; constructor].
  destruct (Render.subplots env figsize); [left; repeat constructor |].
  destruct (Render.draw env _ d x y); [left; repeat constructor |].
  destruct (Render.savefig env _) eqn:Hs; [exact I | right; exact Hs].
Qed.

(** The calls of a returned run: [plt.subplots(figsize)], the seaborn
    call of [kind] on the selected frame, then the title exactly when a
    non-empty title was given, the 45-degree right-aligned ticks exactly
    when [rotate_xticks], and last [tight_layout] and
    [savefig(format="png", dpi=150)]. *)
Theorem render_call_sequence :
  forall env df x y kind title top_n figsize rotate,
    let (evs, res) := Render.plot_from_dataframe env df x y kind title top_n figsize rotate in
    match res with
    | Returned _ =>
        exists d mid,
          Render.select_rows df x y top_n = Returned d /\
          evs = (Render.EvSubplots figsize :: Render.EvDraw (Render.select_strategy kind) d x y
                 :: mid ++ [Render.EvTightLayout; Render.EvSavefig "png" 150])%list /\
          (forall t, In (Render.EvTitle t) evs <-> title = Some t /\ t <> "") /\
          (In (Render.EvXticks 45 "right") evs <-> rotate = true)
    | Raised _ => True
    end.
Proof.
  intros env df x y kind title top_n figsize rotate.
  unfold Render.plot_from_dataframe.
  destruct (Render.select_rows df x y top_n) as [d | e]; [| exact I].
  destruct (Render.subplots env figsize); [exact I |].
  destruct (Render.draw env _ d x y); [exact I |].
  destruct (Render.savefig env _); [| exact I].
  exists d, ((match title with Some t => if String.eqb t "" then [] else [Render.EvTitle t]
                              | None => [] end)
             ++ (if rotate then [Render.EvXticks 45 "right"] else []))%list.
  split; [reflexivity |]. split; [rewrite <- app_assoc; reflexivity |].
  split.
  - intros t. simpl. rewrite !in_app_iff. simpl.
    destruct title as [t' |].
    + destruct (String.eqb t' "") eqn:Ht; simpl.
      * apply String.eqb_eq in Ht. subst t'.
        destruct rotate; simpl; intuition (try discriminate; try congruence).
      * apply String.eqb_neq in Ht.
        destruct rotate; simpl; intuition (try discriminate; try congruence).
    + destruct rotate; simpl; intuition (try discriminate; try congruence).
  - simpl. rewrite !in_app_iff. simpl.
    destruct title as [t' |]; [destruct (String.eqb t' "") |];
      destruct rotate; simpl; intuition (try discriminate; try congruence).
Qed.

(** [create_chart] with its default empty title: only the whole frame of
    the rows is ever drawn (no [top_n]), no title is set, and a returned
    chart was drawn on that frame, is 8 by 4 and has its x tick labels
    rotated. *)
Theorem create_chart_defaults :
  forall env rows x y kind,
    let (evs, res) := Agent.create_chart env rows x y kind "" in
    (forall d, In d (Render.drawn_frames evs) -> d = Render.df_from_rows rows) /\
    (forall t, ~ In (Render.EvTitle t) evs) /\
    match res with
    | Returned r =>
        Render.drawn_frames evs = [Render.df_from_rows rows] /\
        Render.width r = 8 /\ Render.height r = 4 /\ In (Render.EvXticks 45 "right") evs
    | Raised _ => True
    end.
Proof.
  intros env rows x y kind.
  unfold Agent.create_chart, Render.plot_from_rows, Render.plot_from_dataframe.
  cbn [Render.select_rows].
  destruct (Render.subplots env (8, 4)).
  { split; [intros d [] |]. split; [| exact I]. intros t [H | []]. discriminate. }
  destruct (Render.draw env _ _ x y).
  - split; [intros d [<- | []]; reflexivity |]. split; [| exact I].
    intros t H. simpl in H. intuition discriminate.
  - cbn [String.eqb]. simpl.
    destruct (Render.savefig env _).
    + split; [intros d [<- | []]; reflexivity |]. split.
      * intros t H. simpl in H. intuition discriminate.
      * split; [reflexivity |]. split; [reflexivity |]. split; [reflexivity |].
        right; right; left; reflexivity.
    + split; [intros d [<- | []]; reflexivity |]. split; [| exact I].
      intros t H. simpl in H. intuition discriminate.
Qed.

(** ** Columns of [pd.DataFrame(rows)] *)

Lemma existsb_eqb_in :
  forall k cs, existsb (String.eqb k) cs = true <-> In k cs.
Proof.
  intros k cs. rewrite existsb_exists. split.
  - intros (c & Hc & E). apply String.eqb_eq in E. subst. exact Hc.
  - intros H. exists k. split; [exact H | apply String.eqb_refl].
Qed.

Lemma add_keys_spec :
  forall r cols,
    NoDup cols ->
    NoDup (Render.add_keys cols r) /\
    (exists more, Render.add_keys cols r = (cols ++ more)%list) /\
    (forall c, In c (Render.add_keys cols r) <-> In c cols \/ exists v, In (c, v) r).
Proof.
  unfold Render.add_keys.
  induction r as [| [k v] r IH]; intros cols Hnd; simpl.
  - split; [exact Hnd |]. split; [exists []; symmetry; apply app_nil_r |].
    intros c. split; [auto | intros [H | (w & [])]; exact H].
  - set (cols' := if existsb (String.eqb k) cols then cols else (cols ++ [k])%list).
    assert (Hnd' : NoDup cols').
    { unfold cols'. destruct (existsb (String.eqb k) cols) eqn:E; [exact Hnd |].
      apply NoDup_app; [exact Hnd | repeat constructor; simpl; tauto |].
      intros a Ha [Hb | []]. subst a. apply existsb_eqb_in in Ha. congruence. }
    assert (Hin' : forall c, In c cols' <-> In c cols \/ c = k).
    { intros c. unfold cols'. destruct (existsb (String.eqb k) cols) eqn:E.
      - apply existsb_eqb_in in E. split; [auto | intros [H | ->]; auto].
      - rewrite in_app_iff. simpl. intuition. }
    destruct (IH cols' Hnd') as (Hnd'' & (more & Hmore) & Hin'').
    split; [exact Hnd'' |]. split.
    + rewrite Hmore. unfold cols'. destruct (existsb (String.eqb k) cols).
      * exists more. reflexivity.
      * exists (k :: more). rewrite <- app_assoc. reflexivity.
    + intros c. rewrite Hin'', Hin'. split.
      * intros [[H | ->] | (w & Hw)]; [left; exact H | right; exists v; left; reflexivity |
                                      right; exists w; right; exact Hw].
      * intros [H | (w & [E | Hw])]; [left; left; exact H | | right; exists w; exact Hw].
        inversion E; subst. left; right; reflexivity.
Qed.

Lemma fold_add_keys_spec :
  forall rs cols,
    NoDup cols ->
    NoDup (fold_left Render.add_keys rs cols) /\
    (exists more, fold_left Render.add_keys rs cols = (cols ++ more)%list) /\
    (forall c, In c (fold_left Render.add_keys rs cols) <->
               In c cols \/ exists r v, In r rs /\ In (c, v) r).
Proof.
  induction rs as [| r rs IH]; intros cols Hnd; simpl.
  - split; [exact Hnd |]. split; [exists []; symmetry; apply app_nil_r |].
    intros c. split; [auto | intros [H | (r & v & [] & _)]; exact H].
  - destruct (add_keys_spec r cols Hnd) as (Hnd1 & (m1 & Hm1) & Hin1).
    destruct (IH _ Hnd1) as (Hnd2 & (m2 & Hm2) & Hin2).
    split; [exact Hnd2 |]. split.
    + exists (m1 ++ m2)%list. rewrite Hm2, Hm1, app_assoc. reflexivity.
    + intros c. rewrite Hin2, Hin1. split.
      * intros [[H | (v & Hv)] | (r' & v & Hr & Hv)]; [left; exact H | | ].
        -- right. exists r, v. split; [left; reflexivity | exact Hv].
        -- right. exists r', v. split; [right; exact Hr | exact Hv].
      * intros [H | (r' & v & [<- | Hr] & Hv)]; [left; left; exact H | |].
        -- left. right. exists v. exact Hv.
        -- right. exists r', v. split; assumption.
Qed.

(** The columns of the frame built from a list of records: no column
    twice, exactly the keys found in the records, and those of the first
    record first, in its order (when its keys are distinct). *)
Theorem df_from_rows_columns :
  forall rs,
    NoDup (Render.columns (Render.df_from_rows rs)) /\
    (forall c, In c (Render.columns (Render.df_from_rows rs)) <->
               exists r v, In r rs /\ In (c, v) r) /\
    Render.rows (Render.df_from_rows rs) = rs /\
    (forall r rs', rs = r :: rs' -> NoDup (map fst r) ->
       exists more, Render.columns (Render.df_from_rows rs) = (map fst r ++ more)%list).
Proof.
  intros rs.
  destruct (fold_add_keys_spec rs [] (NoDup_nil _)) as (Hnd & _ & Hin).
  split; [exact Hnd |]. split.
  - intros c. simpl. rewrite Hin. simpl. tauto.
  - split; [reflexivity |].
    intros r rs' -> Hr. simpl.
    assert (Hfirst : forall cols, (forall k, In k (map fst r) -> ~ In k cols) ->
              NoDup (map fst r) -> Render.add_keys cols r = (cols ++ map fst r)%list).
    { unfold Render.add_keys. clear.
      induction r as [| [k v] r IH]; intros cols Hdis Hr; simpl; [symmetry; apply app_nil_r |].
      inversion Hr as [| ? ? Hk Hr']; subst.
      replace (existsb (String.eqb k) cols) with false.
      - rewrite IH; [rewrite <- app_assoc; reflexivity | | exact Hr'].
        intros k' Hk' Hin. rewrite in_app_iff in Hin. destruct Hin as [Hin | [<- | []]].
        + exact (Hdis k' (or_intror Hk') Hin).
        + exact (Hk Hk').
      - symmetry. apply not_true_iff_false. rewrite existsb_eqb_in.
        exact (Hdis k (or_introl eq_refl)). }
    rewrite (Hfirst [] (fun k _ H => H) Hr). simpl.
    destruct (fold_add_keys_spec rs' (map fst r)) as (_ & (more & Hmore) & _);
      [exact Hr |].
    exists more. exact Hmore.
Qed.

(** ** Routes of [app.py] *)

(** [GET /chart/{chart_id}] serves the stored bytes as ["image/png"]
    when they are present and non-empty; a missing id and an empty byte
    string alike get the 404 ["Chart not found"]. *)
Theorem get_chart_found_or_404 :
  forall store chart_id,
    (forall png mt, App.get_chart store chart_id = Returned (png, mt) <->
       App.store_get store chart_id = Some png /\ png <> [] /\ mt = "image/png") /\
    (forall e, App.get_chart store chart_id = Raised e <->
       e = HTTPException 404 "Chart not found" /\
       (App.store_get store chart_id = None \/ App.store_get store chart_id = Some [])).
Proof.
  intros store chart_id. unfold App.get_chart.
  destruct (App.store_get store chart_id) as [[| b bs] |]; split; intros.
  - split; [discriminate |]. intros (H1 & H2 & _). inversion H1; subst. contradiction.
  - split; [intros H; inversion H; subst; auto |]. intros [-> _]. reflexivity.
  - split.
    + intros H. inversion H; subst. split; [reflexivity | split; [discriminate | reflexivity]].
    + intros (H1 & _ & ->). inversion H1; subst. reflexivity.
  - split; [discriminate |]. intros [_ [H | H]]; discriminate.
  - split; [discriminate |]. intros (H1 & _). discriminate.
  - split; [intros H; inversion H; subst; auto |]. intros [-> _]. reflexivity.
Qed.

Lemma isspace_strip_empty :
  forall m, Str.all_chars Str.isspace m = true -> Str.strip m = "".
Proof.
  assert (Hl : forall m, Str.all_chars Str.isspace m = true -> Str.lstrip m = "").
  { induction m as [| c m IH]; simpl; intros H; [reflexivity |].
    apply andb_prop in H as [Hc Hm]. rewrite Hc. exact (IH Hm). }
  intros m H. unfold Str.strip. rewrite (Hl m H). reflexivity.
Qed.

(** [POST /chat] with no [message], or one made only of whitespace,
    is refused with a 400 before the session store or the agent runner
    is touched. *)
Theorem chat_blank_message_400 :
  forall env sessions body m,
    App.body_get body "message" (App.JStr "") = App.JStr m ->
    Str.all_chars Str.isspace m = true ->
    App.chat env sessions body
    = (sessions, Raised (HTTPException 400 "'message' field is required")).
Proof.
  intros env sessions body m Hm Hs.
  unfold App.chat. rewrite Hm, (isspace_strip_empty m Hs). reflexivity.
Qed.

Lemma chat_blank_message_400_witness :
  App.chat {| App.run := fun _ _ => Returned [] |} [App.JStr "s1"]
    [("message", App.JStr (String "010" " ")); ("session_id", App.JStr "s2")]
  = ([App.JStr "s1"], Raised (HTTPException 400 "'message' field is required")).
Proof.
  apply (chat_blank_message_400 _ _ _ (String "010" " ")); reflexivity.
Defined.

Lemma json_eqb_eq : forall a b, App.json_eqb a b = true <-> a = b.
Proof.
  intros [s | z | c | ] [t | w | d | ]; simpl; split; intros H; try discriminate;
    try (inversion H; subst); try reflexivity.
  - apply String.eqb_eq in H. subst. reflexivity.
  - apply String.eqb_refl.
  - apply Z.eqb_eq in H. subst. reflexivity.
  - apply Z.eqb_refl.
  - apply Bool.eqb_prop in H. subst. reflexivity.
  - apply Bool.eqb_reflx.
Qed.

(** The sessions kept by [POST /chat]: none is ever dropped, at most
    one is added, no session id is ever stored twice, and after a
    non-blank message the session it names (["default"] when the body
    names none) exists. *)
Theorem chat_session_store :
  forall env sessions body,
    let (sessions', _) := App.chat env sessions body in
    incl sessions sessions' /\
    (length sessions' <= S (length sessions))%nat /\
    (NoDup sessions -> NoDup sessions') /\
    (forall m, App.body_get body "message" (App.JStr "") = App.JStr m ->
       Str.strip m <> "" ->
       In (App.body_get body "session_id" (App.JStr "default")) sessions').
Proof.
  intros env sessions body. unfold App.chat.
  destruct (App.body_get body "message" (App.JStr "")) as [m | | |] eqn:Hm;
    try (split; [apply incl_refl | split; [lia | split; [auto | intros m' Hm'; discriminate]]]).
  set (sid := App.body_get body "session_id" (App.JStr "default")).
  destruct (String.eqb (Str.strip m) "") eqn:Hs.
  - split; [apply incl_refl |]. split; [lia |]. split; [auto |].
    intros m' Hm' Hne. inversion Hm'; subst. apply String.eqb_eq in Hs. contradiction.
  - set (sessions' := if existsb (App.json_eqb sid) sessions then sessions
                      else (sessions ++ [sid])%list).
    assert (Hin : In sid sessions').
    { unfold sessions'. destruct (existsb (App.json_eqb sid) sessions) eqn:E.
      - apply existsb_exists in E as (s & Hs' & Es). apply json_eqb_eq in Es. subst. exact Hs'.
      - apply in_or_app. right. left. reflexivity. }
    assert (Hprops : incl sessions sessions' /\ (length sessions' <= S (length sessions))%nat /\
                     (NoDup sessions -> NoDup sessions')).
    { unfold sessions'. destruct (existsb (App.json_eqb sid) sessions) eqn:E.
      - split; [apply incl_refl |]. split; [lia | auto].
      - split; [apply incl_appl, incl_refl |].
        split; [rewrite length_app; simpl; lia |].
        intros Hnd. apply NoDup_app; [exact Hnd | repeat constructor; simpl; tauto |].
        intros a Ha [Hb | []]. subst a. apply not_true_iff_false in E. apply E.
        apply existsb_exists. exists sid. split; [exact Ha | apply json_eqb_eq; reflexivity]. }
    destruct (App.run env sid (Str.strip m)); simpl;
      (split; [apply Hprops | split; [apply Hprops | split; [apply Hprops |]]]);
      intros m' Hm' _; exact Hin.
Qed.

Lemma body_get_app_absent :
  forall body rest k d,
    ~ In k (map fst body) -> App.body_get (body ++ rest) k d = App.body_get rest k d.
Proof.
  induction body as [| [k' v] body IH]; simpl; intros rest k d Hk; [reflexivity |].
  destruct (String.eqb k k') eqn:E.
  - apply String.eqb_eq in E. subst. exfalso. apply Hk. left. reflexivity.
  - apply IH. intros H. apply Hk. right. exact H.
Qed.

(** Only the stripped message matters to [POST /chat], and a body that
    names no session is handled as one naming the session ["default"]. *)
Theorem chat_trimmed_message_default_session :
  forall env sessions body m1 m2,
    Str.strip m1 = Str.strip m2 ->
    ~ In "session_id" (map fst body) ->
    App.chat env sessions (("message", App.JStr m1) :: body)
    = App.chat env sessions (("message", App.JStr m2) :: body ++ [("session_id", App.JStr "default")])%list.
Proof.
  intros env sessions body m1 m2 Hm Hs.
  unfold App.chat. cbn [App.body_get String.eqb Ascii.eqb Bool.eqb]. rewrite Hm.
  rewrite (body_get_app_absent body _ _ _ Hs).
  replace (App.body_get body "session_id" (App.JStr "default")) with (App.JStr "default").
  - reflexivity.
  - symmetry. rewrite <- (app_nil_r body). rewrite (body_get_app_absent body [] _ _ Hs).
    reflexivity.
Qed.

Lemma chat_trimmed_message_default_session_witness :
  App.chat {| App.run := fun sid msg => Returned [{| App.is_final := true;
                                                     App.parts := Some [Some msg] |}] |}
    [] [("message", App.JStr "  hello ")]
  = App.chat {| App.run := fun sid msg => Returned [{| App.is_final := true;
                                                       App.parts := Some [Some msg] |}] |}
    [] [("message", App.JStr "hello"); ("session_id", App.JStr "default")].
Proof.
  apply (chat_trimmed_message_default_session _ [] [] "  hello " "hello").
  - reflexivity.
  - simpl. tauto.
Defined.

Lemma append_assoc_str : forall a b c, ((a ++ b) ++ c)%string = (a ++ (b ++ c))%string.
Proof. induction a as [| x a IH]; simpl; intros b c; [reflexivity | rewrite IH; reflexivity]. Qed.

Lemma concat_empty_cons :
  forall x l, String.concat "" (x :: l) = (x ++ String.concat "" l)%string.
Proof. intros x [| y l]; simpl; [symmetry; apply append_nil_r | reflexivity]. Qed.

Lemma concat_empty_app :
  forall l1 l2, String.concat "" (l1 ++ l2) = (String.concat "" l1 ++ String.concat "" l2)%string.
Proof.
  induction l1 as [| x l1 IH]; intros l2; [reflexivity |].
  rewrite <- app_comm_cons, !concat_empty_cons, IH. symmetry. apply append_assoc_str.
Qed.

Lemma concat_part_texts :
  forall ps : list (option string),
    String.concat "" (flat_map (fun p => match p with
                                         | Some t => if String.eqb t "" then [] else [t]
                                         | None => []
                                         end) ps)
    = String.concat "" (map (fun p => match p with Some t => t | None => "" end) ps).
Proof.
  induction ps as [| p ps IH]; [reflexivity |].
  cbn [flat_map map]. rewrite concat_empty_app, concat_empty_cons, IH.
  destruct p as [t |]; [| reflexivity].
  destruct (String.eqb t "") eqn:E; [apply String.eqb_eq in E; subst |]; reflexivity.
Qed.

(** The reply of [POST /chat] is the concatenation, in stream order,
    of the texts of the parts of the final-response events; events that
    are not final contribute nothing, and the [if part.text] guard never
    changes the reply (a part without text adds the empty string). *)
Theorem chat_reply_final_texts :
  forall env sessions body m evs,
    App.body_get body "message" (App.JStr "") = App.JStr m ->
    Str.strip m <> "" ->
    App.run env (App.body_get body "session_id" (App.JStr "default")) (Str.strip m) = Returned evs ->
    snd (App.chat env sessions body)
    = Returned (String.concat ""
                  (map (fun p => match p with Some t => t | None => "" end)
                     (flat_map (fun ev => if App.is_final ev
                                          then match App.parts ev with
                                               | Some ps => ps
                                               | None => []
                                               end
                                          else []) evs))).
Proof.
  intros env sessions body m evs Hm Hs Hr.
  unfold App.chat. rewrite Hm.
  destruct (String.eqb (Str.strip m) "") eqn:E; [apply String.eqb_eq in E; contradiction |].
  rewrite Hr. simpl. f_equal. unfold App.response_text. clear Hr.
  induction evs as [| ev evs IH]; [reflexivity |].
  cbn [flat_map]. rewrite map_app, !concat_empty_app, IH.
  unfold App.event_texts.
  destruct (App.is_final ev); [| reflexivity].
  destruct (App.parts ev) as [[| p ps] |]; [reflexivity | | reflexivity].
  rewrite concat_part_texts. reflexivity.
Qed.

Lemma chat_reply_final_texts_witness :
  snd (App.chat {| App.run := fun _ _ =>
                     Returned [{| App.is_final := false; App.parts := Some [Some "thinking"] |};
                               {| App.is_final := true;
                                  App.parts := Some [Some "Hi"; None; Some ""; Some "!"] |}] |}
         [] [("message", App.JStr "hello")])
  = Returned "Hi!".
Proof.
  refine (chat_reply_final_texts _ [] [("message", App.JStr "hello")] "hello"
            [{| App.is_final := false; App.parts := Some [Some "thinking"] |};
             {| App.is_final := true;
                App.parts := Some [Some "Hi"; None; Some ""; Some "!"] |}] _ _ _).
  - reflexivity.
  - discriminate.
  - reflexivity.
Defined.
